(** * Fitness Tracker API: a shallow embedding of [models.py] and [app.py]

    The four SQLAlchemy models become records, the SQLite database becomes a
    record of four row lists kept in rowid order, and every FastAPI handler
    becomes a computation in a small state-and-exception monad whose state is
    the database seen by the request's session.

    Python [int] is [Z], [str] is [string], [Optional[T]] is [option T] and
    [float] is an IEEE 754 value; floats are only stored and returned, never
    computed with.

    A request is the schema object Pydantic has validated, and a handler
    returns the ORM rows it hands to FastAPI: parsing of the request body and
    serialisation through [response_model] are the framework's and are not
    part of the embedding. What the sqlite3 driver does with the values it
    binds is part of it: an [int] outside the signed 64-bit range raises
    OverflowError, a NaN is stored as NULL and a negative zero is read back
    as zero. *)

From Stdlib Require Import ZArith List String Bool Lia Sorted SpecFloat.
Import ListNotations.

Local Open Scope string_scope.
Local Open Scope Z_scope.

(** ** Plain data *)

(** Python's [float]: sign, mantissa and exponent, or a zero, an infinity or
    NaN. *)
Definition float : Set := spec_float.

(** Python's [datetime] module: the two classes the program stores. *)
Module Datetime.
Record date := { year : Z; month : Z; day : Z }.

(** A timestamp, as SQLite's CURRENT_TIMESTAMP yields it. *)
Record datetime := { on_day : date; hour : Z; minute : Z; second : Z }.
End Datetime.

(** ** models.py *)

Module User.
(** Table "users": [email] is UNIQUE NOT NULL, [google_id] is UNIQUE and
    nullable, [created_at] is filled by the server default [func.now()]. *)
Record t := {
  id : Z;
  name : string;
  email : string;
  google_id : option string;
  created_at : Datetime.datetime
}.
End User.

Module Workout.
(** Table "workouts". The ORM object is a Python object whose attributes can
    hold [None]; the six attributes the PATCH handler may assign are
    therefore optional here, and [nullable=False] on [type], [duration_min]
    and [date] is a constraint the database checks when the row is written.
    [is_starred] has a default but no [nullable=False]. *)
Record t := {
  id : Z;
  user_id : Z;
  type : option string;
  duration_min : option Z;
  distance_km : option float;
  avg_pace : option float;
  date : option Datetime.date;
  is_starred : option bool
}.
End Workout.

Module Exercise.
(** Table "exercises". *)
Record t := {
  id : Z;
  workout_id : Z;
  name : string;
  sets : Z;
  reps : Z;
  weight : float
}.
End Exercise.

Module Meal.
(** Table "meals". *)
Record t := {
  id : Z;
  user_id : Z;
  name : string;
  calories : Z;
  protein : float;
  carbs : float;
  fat : float;
  date : Datetime.date
}.
End Meal.

(** ** app.py: Pydantic request schemas *)

Module UserCreate.
Record t := {
  name : string;
  email : string;
  google_id : option string
}.
End UserCreate.

Module WorkoutCreate.
Record t := {
  user_id : Z;
  type : string;
  duration_min : Z;
  distance_km : option float;
  avg_pace : option float;
  date : Datetime.date;
  is_starred : bool
}.
End WorkoutCreate.

(** A field of a schema whose fields all default to [None]: Pydantic records
    whether the request body carried the key at all, and an explicit JSON
    [null] counts as carried. *)
Inductive field (T : Type) : Type :=
| Unset
| Supplied (value : option T).
Arguments Unset {T}.
Arguments Supplied {T} value.

Module WorkoutUpdate.
(** In [date: Optional[date] = None] the class body binds [date] to [None]
    before the annotation is evaluated, so the annotation is [Optional[None]]:
    the only value a body can carry for [date] is null. *)
Record t := {
  type : field string;
  duration_min : field Z;
  distance_km : field float;
  avg_pace : field float;
  date : field Empty_set;
  is_starred : field bool
}.

(** One entry of the dictionary [model_dump] returns: the key together with
    a value of the key's declared type. *)
Inductive item : Type :=
| type_item (value : option string)
| duration_min_item (value : option Z)
| distance_km_item (value : option float)
| avg_pace_item (value : option float)
| date_item (value : option Datetime.date)
| is_starred_item (value : option bool).

Definition dump_field {T} (mk : option T -> item) (f : field T) : list item :=
  match f with
  | Unset => []
  | Supplied value => [mk value]
  end.

(** [workout_update.model_dump(exclude_unset=True)], in declaration order. *)
Definition model_dump_exclude_unset (u : t) : list item :=
  dump_field type_item (type u)
  ++ dump_field duration_min_item (duration_min u)
  ++ dump_field distance_km_item (distance_km u)
  ++ dump_field avg_pace_item (avg_pace u)
  ++ dump_field (fun _ => date_item None) (date u)
  ++ dump_field is_starred_item (is_starred u).
End WorkoutUpdate.

Module ExerciseCreate.
Record t := {
  workout_id : Z;
  name : string;
  sets : Z;
  reps : Z;
  weight : float
}.
End ExerciseCreate.

Module MealCreate.
Record t := {
  user_id : Z;
  name : string;
  calories : Z;
  protein : float;
  carbs : float;
  fat : float;
  date : Datetime.date
}.
End MealCreate.

(** ** The database *)

(** The four tables of [fitness_tracker.db]. Each list is in rowid order, the
    order in which SQLite scans a table when the query has no ORDER BY. *)
Record Store := {
  users : list User.t;
  workouts : list Workout.t;
  exercises : list Exercise.t;
  meals : list Meal.t
}.

Definition empty_store : Store :=
  {| users := []; workouts := []; exercises := []; meals := [] |}.

(** What a handler can raise: the [HTTPException] it builds itself, the
    [IntegrityError] SQLAlchemy raises from [db.commit()], and the
    [OverflowError] the sqlite3 driver raises when it is handed an [int] it
    cannot bind; no handler catches the last two. *)
Inductive Exception : Type :=
| HTTPException (status_code : Z) (detail : string)
| IntegrityError (orig : string)
| OverflowError.

Definition HTTP_400_BAD_REQUEST : Z := 400.
Definition HTTP_404_NOT_FOUND : Z := 404.

(** A handler runs against the request's session. An exception abandons the
    session: [get_db] closes it and whatever was not committed is lost. *)
Definition Handler (A : Type) : Type := Store -> Exception + A * Store.

Definition ret {A} (a : A) : Handler A := fun db => inr (a, db).

Definition raise {A} (e : Exception) : Handler A := fun _ => inl e.

Definition bind {A B} (m : Handler A) (k : A -> Handler B) : Handler B :=
  fun db =>
    match m db with
    | inl e => inl e
    | inr (a, db') => k a db'
    end.

Notation "x <- m ;; k" := (bind m (fun x => k))
  (at level 61, m at next level, right associativity).

(** The response of a request and the database it leaves behind. *)
Definition run {A} (h : Handler A) (db : Store) : (Exception + A) * Store :=
  match h db with
  | inl e => (inl e, db)
  | inr (a, db') => (inr a, db')
  end.

(** ** The sqlite3 driver *)

(** The integers the driver can bind: SQLite's INTEGER is a signed 64-bit
    value. *)
Definition int64 (v : Z) : bool := (- 2 ^ 63 <=? v) && (v <? 2 ^ 63).

Definition optional_int64 (v : option Z) : bool :=
  match v with
  | Some i => int64 i
  | None => true
  end.

(** A float as it comes back from a REAL column: a NaN is stored as NULL and
    the sign of a zero is not kept. *)
Definition sqlite_real (x : float) : option float :=
  match x with
  | S754_nan => None
  | S754_zero _ => Some (S754_zero false)
  | _ => Some x
  end.

Definition nullable_real (x : option float) : option float :=
  match x with
  | Some v => sqlite_real v
  | None => None
  end.

(** ** SQLAlchemy, as far as the handlers use it *)

(** [db.query(Model)] followed by [filter], [offset], [limit], [first] and
    [all]. A query is the list of rows it returns, in scan order, or the
    exception that running it raises. *)
Module Query.
Section Rows.
Context {R : Type}.

Definition t : Type := Exception + list R.

(** [Model.column == value], the only kind of criterion the handlers use. *)
Inductive criterion : Type :=
| eq_int (column : R -> Z) (value : Z)
| eq_str (column : R -> string) (value : string).

Definition holds (c : criterion) (r : R) : bool :=
  match c with
  | eq_int column value => column r =? value
  | eq_str column value => String.eqb (column r) value
  end.

(** The value of the criterion is a parameter of the statement. An [int]
    binds when it fits; a value the column holds was bound before, so it
    fits (the model does not cap rowids, see [next_rowid], and counts the
    ones it has handed out as fitting). *)
Definition binds (c : criterion) (rows : list R) : bool :=
  match c with
  | eq_int column value => int64 value || existsb (fun r => column r =? value) rows
  | eq_str _ _ => true
  end.

Definition filter (c : criterion) (q : t) : t :=
  match q with
  | inl e => inl e
  | inr rows => if binds c rows then inr (List.filter (holds c) rows)
                else inl OverflowError
  end.

(** OFFSET n on rows. SQLite reads a negative offset as zero. *)
Definition skip_rows (n : Z) (rows : list R) : list R := skipn (Z.to_nat n) rows.

(** LIMIT n on rows. SQLite reads a negative limit as "no upper bound";
    SQLAlchemy's own SQLite dialect emits LIMIT -1 for that purpose. *)
Definition take_rows (n : Z) (rows : list R) : list R :=
  if n <? 0 then rows else firstn (Z.to_nat n) rows.

Definition offset (n : Z) (q : t) : t :=
  match q with
  | inl e => inl e
  | inr rows => if int64 n then inr (skip_rows n rows) else inl OverflowError
  end.

Definition limit (n : Z) (q : t) : t :=
  match q with
  | inl e => inl e
  | inr rows => if int64 n then inr (take_rows n rows) else inl OverflowError
  end.

(** [first()]: the first row of the result, or [None]. *)
Definition first (q : t) : Exception + option R :=
  match q with
  | inl e => inl e
  | inr rows => inr (hd_error rows)
  end.

Definition all (q : t) : Exception + list R := q.
End Rows.
Arguments t R : clear implicits.
End Query.

(** The rowid SQLite gives a new row of an INTEGER PRIMARY KEY table declared
    without AUTOINCREMENT: one more than the largest rowid in the table, and 1
    in an empty table. The model has no largest rowid: a table would need
    2^63 - 1 inserts to get there. *)
Definition next_rowid (ids : list Z) : Z := fold_right Z.max 0 ids + 1.

(** DELETE FROM table WHERE id = ?, once for each listed primary key. *)
Definition delete_rows {R} (id : R -> Z) (ids : list Z) (rows : list R) : list R :=
  List.filter (fun r => negb (existsb (Z.eqb (id r)) ids)) rows.

(** [user.workouts], [user.meals] and [workout.exercises]: the collections the
    relationships load, by foreign key. *)
Definition workouts_of (user : User.t) (db : Store) : list Workout.t :=
  List.filter (fun w => Workout.user_id w =? User.id user) (workouts db).

Definition meals_of (user : User.t) (db : Store) : list Meal.t :=
  List.filter (fun m => Meal.user_id m =? User.id user) (meals db).

Definition exercises_of (workout : Workout.t) (db : Store) : list Exercise.t :=
  List.filter (fun e => Exercise.workout_id e =? Workout.id workout) (exercises db).

(** Two nullable UNIQUE values collide only when both are present. *)
Definition same_google_id (a b : option string) : bool :=
  match a, b with
  | Some x, Some y => String.eqb x y
  | _, _ => false
  end.

(** [nullable=False] on the columns of "workouts" a PATCH can assign. *)
Definition workout_not_null (w : Workout.t) : bool :=
  match Workout.type w, Workout.duration_min w, Workout.date w with
  | Some _, Some _, Some _ => true
  | _, _, _ => false
  end.

(** The first NOT NULL column of "workouts", in table order, that the object
    leaves without a value. *)
Definition null_column (w : Workout.t) : string :=
  match Workout.type w, Workout.duration_min w with
  | None, _ => "workouts.type"
  | Some _, None => "workouts.duration_min"
  | Some _, Some _ => "workouts.date"
  end.

(** Equality of two attribute values, [None] included. *)
Definition same {T} (eqb : T -> T -> bool) (a b : option T) : bool :=
  match a, b with
  | Some x, Some y => eqb x y
  | None, None => true
  | _, _ => false
  end.

Definition float_eqb (x y : float) : bool :=
  match x, y with
  | S754_zero a, S754_zero b => Bool.eqb a b
  | S754_infinity a, S754_infinity b => Bool.eqb a b
  | S754_nan, S754_nan => true
  | S754_finite s m e, S754_finite s' m' e' =>
      Bool.eqb s s' && Pos.eqb m m' && Z.eqb e e'
  | _, _ => false
  end.

(** The row of a new workout as the INSERT stores it and [db.refresh] reads
    it back. *)
Definition stored_Workout (w : Workout.t) : Workout.t :=
  {| Workout.id := Workout.id w;
     Workout.user_id := Workout.user_id w;
     Workout.type := Workout.type w;
     Workout.duration_min := Workout.duration_min w;
     Workout.distance_km := nullable_real (Workout.distance_km w);
     Workout.avg_pace := nullable_real (Workout.avg_pace w);
     Workout.date := Workout.date w;
     Workout.is_starred := Workout.is_starred w |}.

(** The row of a persistent workout after the UPDATE and [db.refresh]. The
    UPDATE carries the attributes whose value is no longer the loaded one, so
    only those pass through the driver. *)
Definition flushed (loaded workout : Workout.t) : Workout.t :=
  {| Workout.id := Workout.id workout;
     Workout.user_id := Workout.user_id workout;
     Workout.type := Workout.type workout;
     Workout.duration_min := Workout.duration_min workout;
     Workout.distance_km :=
       if same float_eqb (Workout.distance_km loaded) (Workout.distance_km workout)
       then Workout.distance_km workout
       else nullable_real (Workout.distance_km workout);
     Workout.avg_pace :=
       if same float_eqb (Workout.avg_pace loaded) (Workout.avg_pace workout)
       then Workout.avg_pace workout
       else nullable_real (Workout.avg_pace workout);
     Workout.date := Workout.date workout;
     Workout.is_starred := Workout.is_starred workout |}.

(** The database after the row of primary key [key] was rewritten. *)
Definition replace_workout (db : Store) (key : Z) (row : Workout.t) : Store :=
  {| users := users db;
     workouts := map (fun w => if Workout.id w =? key then row else w) (workouts db);
     exercises := exercises db;
     meals := meals db |}.

(** The UPDATE has to bind a new [duration_min] that does not fit. *)
Definition duration_overflows (loaded workout : Workout.t) : bool :=
  negb (same Z.eqb (Workout.duration_min loaded) (Workout.duration_min workout))
  && negb (optional_int64 (Workout.duration_min workout)).

Module Session.
(** [db.query(Model)]. *)
Definition query {R} (table : Store -> list R) : Handler (Query.t R) :=
  fun db => inr (inr (table db), db).

(** Running a query, [first()] or [all()], inside the handler. *)
Definition execute {A} (result : Exception + A) : Handler A :=
  fun db =>
    match result with
    | inl e => inl e
    | inr a => inr (a, db)
    end.

(** [db.add(db_user); db.commit(); db.refresh(db_user)]: the INSERT is sent
    at commit, where SQLite checks both UNIQUE constraints, assigns the
    rowid and evaluates the default of [created_at]. [db_user] is the
    transient object, still waiting for these two values. *)
Definition add_User (db_user : Z -> Datetime.datetime -> User.t)
    (now : Datetime.datetime) : Handler User.t :=
  fun db =>
    let row := db_user (next_rowid (map User.id (users db))) now in
    if existsb (fun u => String.eqb (User.email u) (User.email row)) (users db)
    then inl (IntegrityError "UNIQUE constraint failed: users.email")
    else if existsb (fun u => same_google_id (User.google_id u) (User.google_id row))
              (users db)
    then inl (IntegrityError "UNIQUE constraint failed: users.google_id")
    else inr (row, {| users := users db ++ [row];
                      workouts := workouts db;
                      exercises := exercises db;
                      meals := meals db |}).

(** The same three calls for the other models. The driver binds the integer
    columns first and refuses the statement when one does not fit; a NaN in a
    NOT NULL REAL column then fails the constraint. SQLite does not enforce
    FOREIGN KEY clauses unless asked to (the engine is created without that
    pragma), and the schemas give every other NOT NULL column a value. *)
Definition add_Workout (db_workout : Z -> Workout.t) : Handler Workout.t :=
  fun db =>
    let transient := db_workout (next_rowid (map Workout.id (workouts db))) in
    if int64 (Workout.user_id transient)
       && optional_int64 (Workout.duration_min transient)
    then let row := stored_Workout transient in
         inr (row, {| users := users db;
                      workouts := workouts db ++ [row];
                      exercises := exercises db;
                      meals := meals db |})
    else inl OverflowError.

Definition add_Exercise (db_exercise : Z -> Exercise.t) : Handler Exercise.t :=
  fun db =>
    let transient := db_exercise (next_rowid (map Exercise.id (exercises db))) in
    if int64 (Exercise.workout_id transient) && int64 (Exercise.sets transient)
       && int64 (Exercise.reps transient)
    then match sqlite_real (Exercise.weight transient) with
         | None => inl (IntegrityError "NOT NULL constraint failed: exercises.weight")
         | Some weight =>
             let row := {| Exercise.id := Exercise.id transient;
                           Exercise.workout_id := Exercise.workout_id transient;
                           Exercise.name := Exercise.name transient;
                           Exercise.sets := Exercise.sets transient;
                           Exercise.reps := Exercise.reps transient;
                           Exercise.weight := weight |} in
             inr (row, {| users := users db;
                          workouts := workouts db;
                          exercises := exercises db ++ [row];
                          meals := meals db |})
         end
    else inl OverflowError.

Definition add_Meal (db_meal : Z -> Meal.t) : Handler Meal.t :=
  fun db =>
    let transient := db_meal (next_rowid (map Meal.id (meals db))) in
    if int64 (Meal.user_id transient) && int64 (Meal.calories transient)
    then match sqlite_real (Meal.protein transient),
               sqlite_real (Meal.carbs transient),
               sqlite_real (Meal.fat transient) with
         | None, _, _ => inl (IntegrityError "NOT NULL constraint failed: meals.protein")
         | Some _, None, _ =>
             inl (IntegrityError "NOT NULL constraint failed: meals.carbs")
         | Some _, Some _, None =>
             inl (IntegrityError "NOT NULL constraint failed: meals.fat")
         | Some protein, Some carbs, Some fat =>
             let row := {| Meal.id := Meal.id transient;
                           Meal.user_id := Meal.user_id transient;
                           Meal.name := Meal.name transient;
                           Meal.calories := Meal.calories transient;
                           Meal.protein := protein;
                           Meal.carbs := carbs;
                           Meal.fat := fat;
                           Meal.date := Meal.date transient |} in
             inr (row, {| users := users db;
                          workouts := workouts db;
                          exercises := exercises db;
                          meals := meals db ++ [row] |})
         end
    else inl OverflowError.

(** [db.delete(user); db.commit()]. Both relationships of [User] cascade
    "all, delete-orphan" and so does [Workout.exercises]: the unit of work
    loads [user.workouts], [user.meals] and each workout's [exercises], and
    deletes every loaded object by primary key. *)
Definition delete_User (user : User.t) : Handler unit :=
  fun db =>
    let ws := workouts_of user db in
    let es := flat_map (fun w => exercises_of w db) ws in
    let ms := meals_of user db in
    inr (tt, {| users := delete_rows User.id [User.id user] (users db);
                workouts := delete_rows Workout.id (map Workout.id ws) (workouts db);
                exercises := delete_rows Exercise.id (map Exercise.id es) (exercises db);
                meals := delete_rows Meal.id (map Meal.id ms) (meals db) |}).

(** [db.delete(workout); db.commit()]. *)
Definition delete_Workout (workout : Workout.t) : Handler unit :=
  fun db =>
    let es := exercises_of workout db in
    inr (tt, {| users := users db;
                workouts := delete_rows Workout.id [Workout.id workout] (workouts db);
                exercises := delete_rows Exercise.id (map Exercise.id es) (exercises db);
                meals := meals db |}).

(** [db.delete(exercise); db.commit()]. *)
Definition delete_Exercise (exercise : Exercise.t) : Handler unit :=
  fun db =>
    inr (tt, {| users := users db;
                workouts := workouts db;
                exercises := delete_rows Exercise.id [Exercise.id exercise] (exercises db);
                meals := meals db |}).

(** [db.delete(meal); db.commit()]. *)
Definition delete_Meal (meal : Meal.t) : Handler unit :=
  fun db =>
    inr (tt, {| users := users db;
                workouts := workouts db;
                exercises := exercises db;
                meals := delete_rows Meal.id [Meal.id meal] (meals db) |}).

(** [db.commit(); db.refresh(workout)] after attributes of a persistent
    [workout] were assigned: UPDATE workouts SET ... WHERE id = ?, with the
    row the session loaded the object from as the state to compare with. The
    driver refuses a [duration_min] that does not fit, and SQLite refuses the
    statement when a NOT NULL column would become NULL. *)
Definition commit_Workout (workout : Workout.t) : Handler Workout.t :=
  fun db =>
    match hd_error (List.filter (fun w => Workout.id w =? Workout.id workout)
                      (workouts db)) with
    | None => inr (workout, db)
    | Some loaded =>
        if duration_overflows loaded workout then inl OverflowError
        else if workout_not_null workout
        then let row := flushed loaded workout in
             inr (row, replace_workout db (Workout.id workout) row)
        else inl (IntegrityError
                    ("NOT NULL constraint failed: " ++ null_column workout))
    end.
End Session.

(** ** app.py: the handlers *)

(** The model constructors applied to the keywords of [model_dump()]: the
    transient object, which gets its primary key (and a user its
    [created_at]) at the INSERT. *)
Definition new_User (user : UserCreate.t) (id : Z) (created_at : Datetime.datetime)
    : User.t :=
  {| User.id := id;
     User.name := UserCreate.name user;
     User.email := UserCreate.email user;
     User.google_id := UserCreate.google_id user;
     User.created_at := created_at |}.

Definition new_Workout (workout : WorkoutCreate.t) (id : Z) : Workout.t :=
  {| Workout.id := id;
     Workout.user_id := WorkoutCreate.user_id workout;
     Workout.type := Some (WorkoutCreate.type workout);
     Workout.duration_min := Some (WorkoutCreate.duration_min workout);
     Workout.distance_km := WorkoutCreate.distance_km workout;
     Workout.avg_pace := WorkoutCreate.avg_pace workout;
     Workout.date := Some (WorkoutCreate.date workout);
     Workout.is_starred := Some (WorkoutCreate.is_starred workout) |}.

Definition new_Exercise (exercise : ExerciseCreate.t) (id : Z) : Exercise.t :=
  {| Exercise.id := id;
     Exercise.workout_id := ExerciseCreate.workout_id exercise;
     Exercise.name := ExerciseCreate.name exercise;
     Exercise.sets := ExerciseCreate.sets exercise;
     Exercise.reps := ExerciseCreate.reps exercise;
     Exercise.weight := ExerciseCreate.weight exercise |}.

Definition new_Meal (meal : MealCreate.t) (id : Z) : Meal.t :=
  {| Meal.id := id;
     Meal.user_id := MealCreate.user_id meal;
     Meal.name := MealCreate.name meal;
     Meal.calories := MealCreate.calories meal;
     Meal.protein := MealCreate.protein meal;
     Meal.carbs := MealCreate.carbs meal;
     Meal.fat := MealCreate.fat meal;
     Meal.date := MealCreate.date meal |}.

(** [setattr(workout, key, value)] for one entry of [update_data]. *)
Definition setattr (workout : Workout.t) (kv : WorkoutUpdate.item) : Workout.t :=
  let '{| Workout.id := id; Workout.user_id := user_id; Workout.type := type;
          Workout.duration_min := duration_min; Workout.distance_km := distance_km;
          Workout.avg_pace := avg_pace; Workout.date := date;
          Workout.is_starred := is_starred |} := workout in
  match kv with
  | WorkoutUpdate.type_item value =>
      Workout.Build_t id user_id value duration_min distance_km avg_pace date is_starred
  | WorkoutUpdate.duration_min_item value =>
      Workout.Build_t id user_id type value distance_km avg_pace date is_starred
  | WorkoutUpdate.distance_km_item value =>
      Workout.Build_t id user_id type duration_min value avg_pace date is_starred
  | WorkoutUpdate.avg_pace_item value =>
      Workout.Build_t id user_id type duration_min distance_km value date is_starred
  | WorkoutUpdate.date_item value =>
      Workout.Build_t id user_id type duration_min distance_km avg_pace value is_starred
  | WorkoutUpdate.is_starred_item value =>
      Workout.Build_t id user_id type duration_min distance_km avg_pace date value
  end.

(** A parameter with a default value in the handler's signature. *)
Definition or_default (default : Z) (arg : option Z) : Z :=
  match arg with
  | Some v => v
  | None => default
  end.

(** Truth value of an [Optional[int]]: [None] and [0] are both false. *)
Definition truthy (arg : option Z) : bool :=
  match arg with
  | Some v => negb (v =? 0)
  | None => false
  end.

(** [query.filter(column == arg)] under [if arg:]. *)
Definition filter_if_truthy {R} (column : R -> Z) (arg : option Z)
    (query : Query.t R) : Query.t R :=
  match arg with
  | Some v => if truthy arg then Query.filter (Query.eq_int column v) query else query
  | None => query
  end.

Definition create_user (user : UserCreate.t) (now : Datetime.datetime)
    : Handler User.t :=
  query <- Session.query users ;;
  existing_user <-
    Session.execute
      (Query.first (Query.filter
                      (Query.eq_str User.email (UserCreate.email user)) query)) ;;
  match existing_user with
  | Some _ =>
      raise (HTTPException HTTP_400_BAD_REQUEST "Email already registered")
  | None =>
      db_user <- Session.add_User (new_User user) now ;;
      ret db_user
  end.

Definition get_users (skip limit : option Z) : Handler (list User.t) :=
  let skip := or_default 0 skip in
  let limit := or_default 100 limit in
  query <- Session.query users ;;
  users <- Session.execute (Query.all (Query.limit limit (Query.offset skip query))) ;;
  ret users.

Definition get_user (user_id : Z) : Handler User.t :=
  query <- Session.query users ;;
  user <- Session.execute
            (Query.first (Query.filter (Query.eq_int User.id user_id) query)) ;;
  match user with
  | None => raise (HTTPException HTTP_404_NOT_FOUND "User not found")
  | Some user => ret user
  end.

Definition delete_user (user_id : Z) : Handler unit :=
  query <- Session.query users ;;
  user <- Session.execute
            (Query.first (Query.filter (Query.eq_int User.id user_id) query)) ;;
  match user with
  | None => raise (HTTPException HTTP_404_NOT_FOUND "User not found")
  | Some user => Session.delete_User user
  end.

Definition create_workout (workout : WorkoutCreate.t) : Handler Workout.t :=
  query <- Session.query users ;;
  user <- Session.execute
            (Query.first (Query.filter
                            (Query.eq_int User.id (WorkoutCreate.user_id workout))
                            query)) ;;
  match user with
  | None => raise (HTTPException HTTP_404_NOT_FOUND "User not found")
  | Some _ =>
      db_workout <- Session.add_Workout (new_Workout workout) ;;
      ret db_workout
  end.

Definition get_workouts (user_id : option Z) (skip limit : option Z)
    : Handler (list Workout.t) :=
  let skip := or_default 0 skip in
  let limit := or_default 100 limit in
  query <- Session.query workouts ;;
  let query := filter_if_truthy Workout.user_id user_id query in
  workouts <- Session.execute
                (Query.all (Query.limit limit (Query.offset skip query))) ;;
  ret workouts.

Definition get_workout (workout_id : Z) : Handler Workout.t :=
  query <- Session.query workouts ;;
  workout <- Session.execute
               (Query.first (Query.filter (Query.eq_int Workout.id workout_id)
                               query)) ;;
  match workout with
  | None => raise (HTTPException HTTP_404_NOT_FOUND "Workout not found")
  | Some workout => ret workout
  end.

Definition update_workout (workout_id : Z) (workout_update : WorkoutUpdate.t)
    : Handler Workout.t :=
  query <- Session.query workouts ;;
  workout <- Session.execute
               (Query.first (Query.filter (Query.eq_int Workout.id workout_id)
                               query)) ;;
  match workout with
  | None => raise (HTTPException HTTP_404_NOT_FOUND "Workout not found")
  | Some workout =>
      let update_data := WorkoutUpdate.model_dump_exclude_unset workout_update in
      let workout := fold_left setattr update_data workout in
      workout <- Session.commit_Workout workout ;;
      ret workout
  end.

Definition delete_workout (workout_id : Z) : Handler unit :=
  query <- Session.query workouts ;;
  workout <- Session.execute
               (Query.first (Query.filter (Query.eq_int Workout.id workout_id)
                               query)) ;;
  match workout with
  | None => raise (HTTPException HTTP_404_NOT_FOUND "Workout not found")
  | Some workout => Session.delete_Workout workout
  end.

Definition create_exercise (exercise : ExerciseCreate.t) : Handler Exercise.t :=
  query <- Session.query workouts ;;
  workout <- Session.execute
               (Query.first (Query.filter
                               (Query.eq_int Workout.id
                                  (ExerciseCreate.workout_id exercise)) query)) ;;
  match workout with
  | None => raise (HTTPException HTTP_404_NOT_FOUND "Workout not found")
  | Some _ =>
      db_exercise <- Session.add_Exercise (new_Exercise exercise) ;;
      ret db_exercise
  end.

Definition get_exercises (workout_id : option Z) (skip limit : option Z)
    : Handler (list Exercise.t) :=
  let skip := or_default 0 skip in
  let limit := or_default 100 limit in
  query <- Session.query exercises ;;
  let query := filter_if_truthy Exercise.workout_id workout_id query in
  exercises <- Session.execute
                 (Query.all (Query.limit limit (Query.offset skip query))) ;;
  ret exercises.

Definition delete_exercise (exercise_id : Z) : Handler unit :=
  query <- Session.query exercises ;;
  exercise <- Session.execute
                (Query.first (Query.filter (Query.eq_int Exercise.id exercise_id)
                                query)) ;;
  match exercise with
  | None => raise (HTTPException HTTP_404_NOT_FOUND "Exercise not found")
  | Some exercise => Session.delete_Exercise exercise
  end.

Definition create_meal (meal : MealCreate.t) : Handler Meal.t :=
  query <- Session.query users ;;
  user <- Session.execute
            (Query.first (Query.filter
                            (Query.eq_int User.id (MealCreate.user_id meal)) query)) ;;
  match user with
  | None => raise (HTTPException HTTP_404_NOT_FOUND "User not found")
  | Some _ =>
      db_meal <- Session.add_Meal (new_Meal meal) ;;
      ret db_meal
  end.

Definition get_meals (user_id : option Z) (skip limit : option Z)
    : Handler (list Meal.t) :=
  let skip := or_default 0 skip in
  let limit := or_default 100 limit in
  query <- Session.query meals ;;
  let query := filter_if_truthy Meal.user_id user_id query in
  meals <- Session.execute (Query.all (Query.limit limit (Query.offset skip query))) ;;
  ret meals.

Definition get_meal (meal_id : Z) : Handler Meal.t :=
  query <- Session.query meals ;;
  meal <- Session.execute
            (Query.first (Query.filter (Query.eq_int Meal.id meal_id) query)) ;;
  match meal with
  | None => raise (HTTPException HTTP_404_NOT_FOUND "Meal not found")
  | Some meal => ret meal
  end.

Definition delete_meal (meal_id : Z) : Handler unit :=
  query <- Session.query meals ;;
  meal <- Session.execute
            (Query.first (Query.filter (Query.eq_int Meal.id meal_id) query)) ;;
  match meal with
  | None => raise (HTTPException HTTP_404_NOT_FOUND "Meal not found")
  | Some meal => Session.delete_Meal meal
  end.

(** ** Consistency of the database *)

(** Primary keys of a table in scan order: positive and strictly increasing,
    hence pairwise different. *)
Definition primary_key (ids : list Z) : Prop := StronglySorted Z.lt (0 :: ids).

(** The values of a nullable column that are not NULL. *)
Definition present {A} (column : list (option A)) : list A :=
  flat_map (fun v => match v with Some a => [a] | None => [] end) column.

(** What the schema promises about the stored rows: primary keys, the two
    UNIQUE columns of "users", the NOT NULL columns of "workouts", and the
    three foreign keys. *)
Record consistent (db : Store) : Prop := {
  users_pk : primary_key (map User.id (users db));
  workouts_pk : primary_key (map Workout.id (workouts db));
  exercises_pk : primary_key (map Exercise.id (exercises db));
  meals_pk : primary_key (map Meal.id (meals db));
  email_unique : NoDup (map User.email (users db));
  google_id_unique : NoDup (present (map User.google_id (users db)));
  workouts_not_null : Forall (fun w => workout_not_null w = true) (workouts db);
  workouts_fk : Forall (fun w => In (Workout.user_id w) (map User.id (users db)))
                  (workouts db);
  exercises_fk : Forall (fun e => In (Exercise.workout_id e)
                                    (map Workout.id (workouts db)))
                   (exercises db);
  meals_fk : Forall (fun m => In (Meal.user_id m) (map User.id (users db)))
               (meals db)
}.

(** The requests that write to the database. *)
Inductive Request : Type :=
| POST_users (user : UserCreate.t) (now : Datetime.datetime)
| DELETE_users (user_id : Z)
| POST_workouts (workout : WorkoutCreate.t)
| PATCH_workouts (workout_id : Z) (workout_update : WorkoutUpdate.t)
| DELETE_workouts (workout_id : Z)
| POST_exercises (exercise : ExerciseCreate.t)
| DELETE_exercises (exercise_id : Z)
| POST_meals (meal : MealCreate.t)
| DELETE_meals (meal_id : Z).

(** The database after a request was served. *)
Definition serve (r : Request) (db : Store) : Store :=
  match r with
  | POST_users user now => snd (run (create_user user now) db)
  | DELETE_users user_id => snd (run (delete_user user_id) db)
  | POST_workouts workout => snd (run (create_workout workout) db)
  | PATCH_workouts workout_id workout_update =>
      snd (run (update_workout workout_id workout_update) db)
  | DELETE_workouts workout_id => snd (run (delete_workout workout_id) db)
  | POST_exercises exercise => snd (run (create_exercise exercise) db)
  | DELETE_exercises exercise_id => snd (run (delete_exercise exercise_id) db)
  | POST_meals meal => snd (run (create_meal meal) db)
  | DELETE_meals meal_id => snd (run (delete_meal meal_id) db)
  end.

(** The databases the API can produce from an empty one. *)
Inductive reachable : Store -> Prop :=
| reachable_empty : reachable empty_store
| reachable_serve db r : reachable db -> reachable (serve r db).

(** Rows with a given value in a column. *)
Definition count_where {R} (criterion : R -> bool) (rows : list R) : nat :=
  List.length (List.filter criterion rows).

(** No row points at a parent that is not stored. *)
Definition no_orphans (db : Store) : Prop :=
  Forall (fun w => In (Workout.user_id w) (map User.id (users db))) (workouts db)
  /\ Forall (fun e => In (Exercise.workout_id e) (map Workout.id (workouts db)))
       (exercises db)
  /\ Forall (fun m => In (Meal.user_id m) (map User.id (users db))) (meals db).

(** ** Vocabulary of the claims *)

(** The first row that satisfies [p], as [first()] returns it. *)
Definition first_where {R} (p : R -> bool) (rows : list R) : option R :=
  hd_error (List.filter p rows).

(** The value a column should hold after a PATCH: the supplied one, or the
    prior one when the request omitted the field. *)
Definition patched {T} (f : field T) (prior : option T) : option T :=
  match f with
  | Unset => prior
  | Supplied value => value
  end.

(** Every field the request omitted has its prior value. *)
Definition omitted_kept (u : WorkoutUpdate.t) (before after : Workout.t) : Prop :=
  (WorkoutUpdate.type u = Unset -> Workout.type after = Workout.type before)
  /\ (WorkoutUpdate.duration_min u = Unset ->
      Workout.duration_min after = Workout.duration_min before)
  /\ (WorkoutUpdate.distance_km u = Unset ->
      Workout.distance_km after = Workout.distance_km before)
  /\ (WorkoutUpdate.avg_pace u = Unset ->
      Workout.avg_pace after = Workout.avg_pace before)
  /\ (WorkoutUpdate.date u = Unset -> Workout.date after = Workout.date before)
  /\ (WorkoutUpdate.is_starred u = Unset ->
      Workout.is_starred after = Workout.is_starred before).

(** Every field the request supplied holds the supplied value as the
    database stores it: a float goes through the driver, unless it is the
    value the row already had, which is not written again. *)
Definition supplied_stored (u : WorkoutUpdate.t) (before after : Workout.t) : Prop :=
  (forall v, WorkoutUpdate.type u = Supplied v -> Workout.type after = v)
  /\ (forall v, WorkoutUpdate.duration_min u = Supplied v ->
                Workout.duration_min after = v)
  /\ (forall v, WorkoutUpdate.distance_km u = Supplied v ->
                Workout.distance_km after = nullable_real v
                \/ (Workout.distance_km after = v /\ Workout.distance_km before = v))
  /\ (forall v, WorkoutUpdate.avg_pace u = Supplied v ->
                Workout.avg_pace after = nullable_real v
                \/ (Workout.avg_pace after = v /\ Workout.avg_pace before = v))
  /\ (forall v, WorkoutUpdate.is_starred u = Supplied v ->
                Workout.is_starred after = v).

Definition is_null {T} (f : field T) : bool :=
  match f with
  | Supplied None => true
  | _ => false
  end.

(** The request supplies an explicit null for a NOT NULL column. *)
Definition nulls_required (u : WorkoutUpdate.t) : bool :=
  is_null (WorkoutUpdate.type u)
  || is_null (WorkoutUpdate.duration_min u)
  || is_null (WorkoutUpdate.date u).

(** The [duration_min] the request supplies, if any, fits in 64 bits. *)
Definition duration_fits (u : WorkoutUpdate.t) : bool :=
  match WorkoutUpdate.duration_min u with
  | Supplied v => optional_int64 v
  | Unset => true
  end.

(** The object after the loop over [update_data]. *)
Definition assigned (u : WorkoutUpdate.t) (workout : Workout.t) : Workout.t :=
  fold_left setattr (WorkoutUpdate.model_dump_exclude_unset u) workout.

(** The database after a user row was appended. *)
Definition with_user (db : Store) (row : User.t) : Store :=
  {| users := users db ++ [row];
     workouts := workouts db;
     exercises := exercises db;
     meals := meals db |}.

(** The rows a listing selects before it is paged: those whose foreign key is
    the filter value, or all of them when the filter is [None] or 0. *)
Definition matching {R} (fk : R -> Z) (arg : option Z) (table : list R) : list R :=
  match arg with
  | Some v => if truthy arg then List.filter (fun r => fk r =? v) table else table
  | None => table
  end.

(** The rows of a listing once the handler's defaults are applied. *)
Definition page {R} (skip limit : option Z) (matching : list R) : list R :=
  Query.take_rows (or_default 100 limit) (Query.skip_rows (or_default 0 skip) matching).

(** Offset and limit, defaults applied, are integers the driver can bind. *)
Definition pageable (skip limit : option Z) : bool :=
  int64 (or_default 0 skip) && int64 (or_default 100 limit).

(** [rows] is the page at offset [N] with limit [M] of [matching]. *)
Definition is_page {R} (N M : Z) (matching rows : list R) : Prop :=
  rows = firstn (Z.to_nat M) (skipn (Z.to_nat N) matching)
  /\ Z.of_nat (List.length rows) <= M
  /\ (Z.of_nat (List.length matching) <= N -> rows = []).

(** [rows] is the requested page of exactly the rows of [table] whose foreign
    key is [parent_id]. *)
Definition lists_children {R} (fk : R -> Z) (parent_id : Z) (skip limit : option Z)
    (table rows : list R) : Prop :=
  rows = page skip limit (List.filter (fun r => fk r =? parent_id) table)
  /\ (forall r, In r rows -> In r table /\ fk r = parent_id)
  /\ (or_default 0 skip <= 0 ->
      or_default 100 limit < 0
      \/ Z.of_nat (count_where (fun r => fk r =? parent_id) table)
         <= or_default 100 limit ->
      forall r, In r table -> fk r = parent_id -> In r rows).

(** ** A small database, built through the API *)

Module Sample.
Definition new_year : Datetime.date :=
  {| Datetime.year := 2024; Datetime.month := 1; Datetime.day := 1 |}.

Definition noon : Datetime.datetime :=
  {| Datetime.on_day := new_year; Datetime.hour := 12;
     Datetime.minute := 0; Datetime.second := 0 |}.

Definition ann : UserCreate.t :=
  {| UserCreate.name := "Ann"; UserCreate.email := "ann@x.com";
     UserCreate.google_id := Some "g-ann" |}.

Definition bob : UserCreate.t :=
  {| UserCreate.name := "Bob"; UserCreate.email := "bob@x.com";
     UserCreate.google_id := None |}.

(** Carol signs in with the Google account Ann has linked. *)
Definition carol : UserCreate.t :=
  {| UserCreate.name := "Carol"; UserCreate.email := "carol@x.com";
     UserCreate.google_id := Some "g-ann" |}.

(** Ann's address again, with a capital in the local part. *)
Definition ann_capital : UserCreate.t :=
  {| UserCreate.name := "Ann"; UserCreate.email := "Ann@x.com";
     UserCreate.google_id := None |}.

(** The first integer the driver cannot bind. *)
Definition too_big : Z := 2 ^ 63.

Definition run_30 (user_id : Z) : WorkoutCreate.t :=
  {| WorkoutCreate.user_id := user_id; WorkoutCreate.type := "run";
     WorkoutCreate.duration_min := 30; WorkoutCreate.distance_km := Some (S754_finite false 5 0);
     WorkoutCreate.avg_pace := None; WorkoutCreate.date := new_year;
     WorkoutCreate.is_starred := false |}.

Definition pushup (workout_id : Z) : ExerciseCreate.t :=
  {| ExerciseCreate.workout_id := workout_id; ExerciseCreate.name := "pushup";
     ExerciseCreate.sets := 3; ExerciseCreate.reps := 10;
     ExerciseCreate.weight := S754_zero false |}.

Definition lunch (user_id : Z) : MealCreate.t :=
  {| MealCreate.user_id := user_id; MealCreate.name := "lunch";
     MealCreate.calories := 600; MealCreate.protein := S754_finite false 30 0;
     MealCreate.carbs := S754_finite false 70 0; MealCreate.fat := S754_finite false 20 0;
     MealCreate.date := new_year |}.

(** Ann and Bob register; each logs a run, a set of push-ups and a lunch. *)
Definition requests : list Request :=
  [ POST_users ann noon; POST_users bob noon;
    POST_workouts (run_30 1); POST_workouts (run_30 2);
    POST_exercises (pushup 1); POST_exercises (pushup 2);
    POST_meals (lunch 1); POST_meals (lunch 2) ].

Definition db : Store :=
  Eval vm_compute in fold_left (fun db r => serve r db) requests empty_store.

Definition ann_row : User.t := new_User ann 1 noon.
Definition ann_run : Workout.t := new_Workout (run_30 1) 1.
Definition bob_run : Workout.t := new_Workout (run_30 2) 2.
End Sample.

Module PatchSample.
(** A request body with two keys: [duration_min] and [is_starred]. *)
Definition longer_and_starred : WorkoutUpdate.t :=
  {| WorkoutUpdate.type := Unset;
     WorkoutUpdate.duration_min := Supplied (Some 45);
     WorkoutUpdate.distance_km := Unset;
     WorkoutUpdate.avg_pace := Unset;
     WorkoutUpdate.date := Unset;
     WorkoutUpdate.is_starred := Supplied (Some true) |}.

(** A request body that asks for a longer duration and nulls the type. *)
Definition longer_without_type : WorkoutUpdate.t :=
  {| WorkoutUpdate.type := Supplied None;
     WorkoutUpdate.duration_min := Supplied (Some 45);
     WorkoutUpdate.distance_km := Unset;
     WorkoutUpdate.avg_pace := Unset;
     WorkoutUpdate.date := Unset;
     WorkoutUpdate.is_starred := Unset |}.
End PatchSample.

(** ** Lists, queries and primary keys *)

Section QueryFacts.
Context {R : Type}.
Implicit Types (p : R -> bool) (q : list R).

Lemma first_filter_Some p q r :
  first_where p q = Some r -> In r q /\ p r = true.
Proof.
  unfold first_where.
  induction q as [|x q IH]; simpl; [discriminate|].
  destruct (p x) eqn:Hx; simpl.
  - intros [= ->]. auto.
  - intros H. destruct (IH H). auto.
Qed.

Lemma first_filter_None p q :
  first_where p q = None -> forall r, In r q -> p r = false.
Proof.
  unfold first_where.
  induction q as [|x q IH]; simpl; [tauto|].
  destruct (p x) eqn:Hx; simpl; [discriminate|].
  intros H r [<-|Hr]; auto.
Qed.

Lemma first_filter_exists p q r :
  In r q -> p r = true -> exists r', first_where p q = Some r'.
Proof.
  intros Hr Hp. destruct (first_where p q) eqn:E; eauto.
  rewrite (first_filter_None _ _ E r Hr) in Hp. discriminate.
Qed.

Lemma limit_length n q : 0 <= n -> (Z.of_nat (List.length (Query.take_rows n q)) <= n)%Z.
Proof.
  intros Hn. unfold Query.take_rows.
  destruct (Z.ltb_spec n 0); [lia|].
  rewrite length_firstn. lia.
Qed.

Lemma offset_beyond n q : Z.of_nat (List.length q) <= n -> Query.skip_rows n q = [].
Proof.
  intros Hn. unfold Query.skip_rows. apply skipn_all2. lia.
Qed.

Lemma limit_nil n : Query.take_rows n (@nil R) = [].
Proof. unfold Query.take_rows. destruct (n <? 0); [reflexivity|apply firstn_nil]. Qed.

Lemma In_limit n q r : In r (Query.take_rows n q) -> In r q.
Proof.
  unfold Query.take_rows. destruct (n <? 0); [auto|]. revert q.
  induction (Z.to_nat n) as [|k IH]; intros [|x q]; simpl; try tauto.
  intros [->|H]; auto.
Qed.

Lemma In_offset n q r : In r (Query.skip_rows n q) -> In r q.
Proof.
  unfold Query.skip_rows. revert q.
  induction (Z.to_nat n) as [|k IH]; intros [|x q]; simpl; auto.
Qed.
End QueryFacts.

Section PrimaryKeys.
Lemma primary_key_bounds ids :
  primary_key ids -> Forall (fun i => 0 < i < next_rowid ids) ids.
Proof.
  unfold primary_key, next_rowid. intros H.
  apply StronglySorted_inv in H as [_ H].
  induction H as [|i ids Hi _ IH]; constructor; simpl.
  - lia.
  - eapply Forall_impl; [|exact IH]. simpl. lia.
Qed.

Lemma primary_key_NoDup ids : primary_key ids -> NoDup ids.
Proof.
  unfold primary_key. intros H. apply StronglySorted_inv in H as [H _].
  induction H as [|i ids _ IH Hi]; constructor; auto.
  intros Hin. rewrite Forall_forall in Hi. specialize (Hi _ Hin). lia.
Qed.

Lemma StronglySorted_snoc (l : list Z) x :
  StronglySorted Z.lt l -> Forall (fun i => i < x) l ->
  StronglySorted Z.lt (l ++ [x])%list.
Proof.
  induction 1 as [|i l Hs IH Hi]; intros Hx; simpl.
  - repeat constructor.
  - inversion Hx; subst. constructor; auto.
    apply Forall_app. split; auto.
Qed.

Lemma primary_key_insert ids :
  primary_key ids -> primary_key (ids ++ [next_rowid ids])%list.
Proof.
  intros H. pose proof (primary_key_bounds _ H) as Hb.
  unfold primary_key in *. change (0 :: ids ++ [next_rowid ids])%list
    with ((0 :: ids) ++ [next_rowid ids])%list.
  apply StronglySorted_snoc; auto. constructor.
  - unfold next_rowid. clear. induction ids; simpl; lia.
  - eapply Forall_impl; [|exact Hb]. simpl. lia.
Qed.

Lemma StronglySorted_filter (f : Z -> bool) l :
  StronglySorted Z.lt l -> StronglySorted Z.lt (List.filter f l).
Proof.
  induction 1 as [|i l Hs IH Hi]; simpl; [constructor|].
  destruct (f i); auto. constructor; auto.
  rewrite Forall_forall in *. intros x Hx. apply filter_In in Hx as [Hx _]. auto.
Qed.

Context {R : Type} (id : R -> Z).

Lemma primary_key_filter (p : R -> bool) rows :
  primary_key (map id rows) -> primary_key (map id (List.filter p rows)).
Proof.
  unfold primary_key. intros H.
  apply StronglySorted_inv in H as [Hs H0]. constructor.
  - clear H0. induction rows as [|r rows IH]; simpl in *; [constructor|].
    apply StronglySorted_inv in Hs as [Hs Hr].
    destruct (p r); simpl; auto. constructor; auto.
    rewrite Forall_forall in *. intros x Hx.
    apply in_map_iff in Hx as (y & <- & Hy). apply filter_In in Hy as [Hy _].
    apply Hr. apply in_map. exact Hy.
  - rewrite Forall_forall in *. intros x Hx.
    apply in_map_iff in Hx as (y & <- & Hy). apply filter_In in Hy as [Hy _].
    apply H0. apply in_map. exact Hy.
Qed.

Lemma primary_key_delete ids rows :
  primary_key (map id rows) -> primary_key (map id (delete_rows id ids rows)).
Proof. apply primary_key_filter. Qed.

Lemma In_delete_rows ids rows r :
  In r (delete_rows id ids rows) <-> In r rows /\ ~ In (id r) ids.
Proof.
  unfold delete_rows. rewrite filter_In, negb_true_iff.
  split; intros [Hr Hn]; split; auto.
  - intros Hin. assert (existsb (Z.eqb (id r)) ids = true) as E.
    { apply existsb_exists. exists (id r). split; auto. apply Z.eqb_refl. }
    congruence.
  - destruct (existsb (Z.eqb (id r)) ids) eqn:E; auto.
    apply existsb_exists in E as (x & Hx & Heq). apply Z.eqb_eq in Heq.
    subst. contradiction.
Qed.

(** In a table with a primary key, the row found by id is the row. *)
Lemma first_by_id rows r :
  primary_key (map id rows) -> In r rows ->
  first_where (fun x => id x =? id r) rows = Some r.
Proof.
  intros Hpk. apply primary_key_NoDup in Hpk.
  unfold first_where.
  induction rows as [|x rows IH]; simpl; [tauto|].
  inversion Hpk as [|? ? Hx Hnd]; subst.
  intros [->|Hr].
  - rewrite Z.eqb_refl. reflexivity.
  - destruct (Z.eqb_spec (id x) (id r)) as [E|_]; auto.
    exfalso. apply Hx. rewrite E. apply in_map. exact Hr.
Qed.

Lemma primary_key_inj rows r r' :
  primary_key (map id rows) -> In r rows -> In r' rows -> id r = id r' -> r = r'.
Proof.
  intros Hpk Hr Hr' E.
  pose proof (first_by_id rows r Hpk Hr) as H1.
  pose proof (first_by_id rows r' Hpk Hr') as H2.
  rewrite E in H1. congruence.
Qed.
End PrimaryKeys.

Section Cascade.
Context {P C : Type} (pid : P -> Z) (cid fk : C -> Z).

(** Deleting parents together with every child that points at one of them
    keeps the foreign key of the remaining children valid. *)
Lemma delete_rows_fk parents children dp dc :
  Forall (fun c => In (fk c) (map pid parents)) children ->
  (forall c, In c children -> In (fk c) dp -> In (cid c) dc) ->
  Forall (fun c => In (fk c) (map pid (delete_rows pid dp parents)))
    (delete_rows cid dc children).
Proof.
  intros Hfk Hdc. rewrite Forall_forall in *. intros c Hc.
  apply In_delete_rows in Hc as [Hc Hkeep].
  destruct (proj1 (in_map_iff _ _ _) (Hfk c Hc)) as (p & Hp & Hin).
  rewrite <- Hp. apply in_map. apply In_delete_rows. split; auto.
  rewrite Hp. auto.
Qed.

Lemma delete_children_fk parents children dc :
  Forall (fun c => In (fk c) (map pid parents)) children ->
  Forall (fun c => In (fk c) (map pid parents)) (delete_rows cid dc children).
Proof.
  intros Hfk. rewrite Forall_forall in *. intros c Hc.
  apply In_delete_rows in Hc as [Hc _]. auto.
Qed.

Lemma insert_parent_fk parents children p :
  Forall (fun c => In (fk c) (map pid parents)) children ->
  Forall (fun c => In (fk c) (map pid (parents ++ [p]))) children.
Proof.
  intros Hfk. eapply Forall_impl; [|exact Hfk]. simpl. intros c Hc.
  rewrite map_app. apply in_or_app. auto.
Qed.

Lemma insert_child_fk parents children c :
  Forall (fun c => In (fk c) (map pid parents)) children ->
  In (fk c) (map pid parents) ->
  Forall (fun c => In (fk c) (map pid parents)) (children ++ [c]).
Proof. intros Hfk Hc. apply Forall_app. split; auto. Qed.
End Cascade.

Section Unique.
Context {R A : Type} (f : R -> list A).

Lemma NoDup_app_disjoint (l1 l2 : list A) :
  NoDup (l1 ++ l2) -> forall a, In a l1 -> ~ In a l2.
Proof.
  induction l1 as [|x l1 IH]; simpl; [tauto|].
  intros H a [->|Ha] Hin; inversion H as [|? ? Hx Hnd]; subst.
  - apply Hx. apply in_or_app. auto.
  - exact (IH Hnd a Ha Hin).
Qed.

Lemma NoDup_flat_map_filter (p : R -> bool) rows :
  NoDup (flat_map f rows) -> NoDup (flat_map f (List.filter p rows)).
Proof.
  induction rows as [|r rows IH]; simpl; auto.
  intros H. pose proof (NoDup_app_remove_l _ _ H) as Hr.
  destruct (p r); simpl; auto.
  pose proof (NoDup_app_disjoint _ _ H) as Hdis.
  apply NoDup_app; [exact (NoDup_app_remove_r _ _ H)|auto|].
  intros a Ha Hin. apply (Hdis a Ha).
  apply in_flat_map in Hin as (x & Hx & Hax). apply filter_In in Hx as [Hx _].
  apply in_flat_map. eauto.
Qed.

Lemma NoDup_flat_map_snoc rows r :
  NoDup (flat_map f rows) -> NoDup (f r) ->
  (forall a, In a (f r) -> ~ In a (flat_map f rows)) ->
  NoDup (flat_map f (rows ++ [r])).
Proof.
  intros H1 H2 Hdis. rewrite flat_map_app. simpl. rewrite app_nil_r.
  apply NoDup_app; [exact H1|exact H2|].
  intros a Ha Har. exact (Hdis a Har Ha).
Qed.
End Unique.

Lemma map_as_flat_map {R A} (f : R -> A) rows :
  map f rows = flat_map (fun r => [f r]) rows.
Proof. induction rows; simpl; congruence. Qed.

Lemma present_as_flat_map {R A} (f : R -> option A) rows :
  present (map f rows)
  = flat_map (fun r => match f r with Some a => [a] | None => [] end) rows.
Proof.
  unfold present. induction rows as [|r rows IH]; simpl; [reflexivity|].
  rewrite IH. reflexivity.
Qed.

(** ** Every handler keeps the database consistent *)

Lemma setattr_id workout kv : Workout.id (setattr workout kv) = Workout.id workout.
Proof. destruct workout, kv; reflexivity. Qed.

Lemma setattr_user_id workout kv :
  Workout.user_id (setattr workout kv) = Workout.user_id workout.
Proof. destruct workout, kv; reflexivity. Qed.

Lemma fold_setattr_id update_data workout :
  Workout.id (fold_left setattr update_data workout) = Workout.id workout.
Proof.
  revert workout. induction update_data as [|kv l IH]; intros w; simpl; auto.
  rewrite IH. apply setattr_id.
Qed.

Lemma fold_setattr_user_id update_data workout :
  Workout.user_id (fold_left setattr update_data workout) = Workout.user_id workout.
Proof.
  revert workout. induction update_data as [|kv l IH]; intros w; simpl; auto.
  rewrite IH. apply setattr_user_id.
Qed.

Lemma existsb_false_forall {R} (p : R -> bool) rows :
  existsb p rows = false -> forall r, In r rows -> p r = false.
Proof.
  intros H r Hr. destruct (p r) eqn:E; auto.
  assert (existsb p rows = true) by (apply existsb_exists; eauto). congruence.
Qed.

Lemma add_User_consistent user now db db_user db' :
  consistent db ->
  Session.add_User (new_User user) now db = inr (db_user, db') ->
  consistent db'.
Proof.
  intros [] H. unfold Session.add_User in H. simpl in H.
  destruct (existsb _ (users db)) eqn:Hemail; [discriminate|].
  destruct (existsb _ (users db)) eqn:Hgoogle in H; [discriminate|].
  injection H as <- <-. constructor; simpl; auto.
  - rewrite map_app. simpl. apply primary_key_insert. assumption.
  - rewrite map_as_flat_map. apply NoDup_flat_map_snoc.
    + rewrite <- map_as_flat_map. assumption.
    + repeat constructor. simpl. tauto.
    + simpl. intros a [<-|[]] Hin. apply in_flat_map in Hin as (u & Hu & [E|[]]).
      apply (existsb_false_forall _ _ Hemail) in Hu. simpl in Hu.
      rewrite E, String.eqb_refl in Hu. discriminate.
  - rewrite present_as_flat_map. apply NoDup_flat_map_snoc.
    + rewrite <- present_as_flat_map. assumption.
    + simpl. destruct (UserCreate.google_id user); repeat constructor. simpl. tauto.
    + simpl. intros a Ha Hin. apply in_flat_map in Hin as (u & Hu & Hau).
      apply (existsb_false_forall _ _ Hgoogle) in Hu. simpl in Hu.
      destruct (UserCreate.google_id user) as [g|]; [|destruct Ha].
      destruct Ha as [<-|[]]. destruct (User.google_id u) as [g'|]; [|destruct Hau].
      destruct Hau as [<-|[]]. simpl in Hu. rewrite String.eqb_refl in Hu.
      discriminate.
  - apply insert_parent_fk. assumption.
  - apply insert_parent_fk. assumption.
Qed.

Lemma delete_User_consistent user db u db' :
  consistent db -> Session.delete_User user db = inr (u, db') -> consistent db'.
Proof.
  intros [] H. unfold Session.delete_User in H. injection H as _ <-.
  constructor; simpl; try (apply primary_key_delete; assumption).
  - rewrite map_as_flat_map. apply NoDup_flat_map_filter.
    rewrite <- map_as_flat_map. assumption.
  - rewrite present_as_flat_map. apply NoDup_flat_map_filter.
    rewrite <- present_as_flat_map. assumption.
  - rewrite Forall_forall in *. intros w Hw.
    apply In_delete_rows in Hw as [Hw _]. auto.
  - apply delete_rows_fk; [assumption|]. intros w Hw [E|[]].
    apply in_map. apply filter_In. split; [exact Hw|]. apply Z.eqb_eq. auto.
  - apply delete_rows_fk; [assumption|]. intros e He Hin.
    apply in_map_iff in Hin as (w & Hwe & Hw).
    apply in_map. apply in_flat_map. exists w. split; [exact Hw|].
    apply filter_In. split; [exact He|]. apply Z.eqb_eq. auto.
  - apply delete_rows_fk; [assumption|]. intros m Hm [E|[]].
    apply in_map. apply filter_In. split; [exact Hm|]. apply Z.eqb_eq. auto.
Qed.

Lemma add_Workout_consistent workout db db_workout db' :
  consistent db ->
  In (WorkoutCreate.user_id workout) (map User.id (users db)) ->
  Session.add_Workout (new_Workout workout) db = inr (db_workout, db') ->
  consistent db'.
Proof.
  intros [] Hfk H. unfold Session.add_Workout in H. simpl in H.
  destruct (int64 _ && _); [|discriminate].
  injection H as <- <-. constructor; simpl; auto.
  - rewrite map_app. simpl. apply primary_key_insert. assumption.
  - apply Forall_app. split; auto.
  - apply insert_child_fk; assumption.
  - apply insert_parent_fk. assumption.
Qed.

Lemma map_replace_id key row rows :
  Workout.id row = key ->
  map Workout.id (map (fun w => if Workout.id w =? key then row else w) rows)
  = map Workout.id rows.
Proof.
  intros Hrow. rewrite map_map. apply map_ext. intros w.
  destruct (Z.eqb_spec (Workout.id w) key); congruence.
Qed.

Lemma flushed_not_null loaded workout :
  workout_not_null (flushed loaded workout) = workout_not_null workout.
Proof. reflexivity. Qed.

Lemma commit_Workout_consistent workout db row db' :
  consistent db ->
  In (Workout.user_id workout) (map User.id (users db)) ->
  Session.commit_Workout workout db = inr (row, db') ->
  consistent db'.
Proof.
  intros Hdb Hfk H. unfold Session.commit_Workout in H.
  destruct (hd_error _) as [loaded|]; [|injection H as _ <-; exact Hdb].
  destruct (duration_overflows loaded workout); [discriminate|].
  destruct (workout_not_null workout) eqn:Hnn; [|discriminate].
  injection H as <- <-. destruct Hdb. constructor; simpl; auto.
  - rewrite map_replace_id by reflexivity. assumption.
  - apply Forall_map. eapply Forall_impl; [|exact workouts_not_null0].
    simpl. intros w Hw. destruct (Workout.id w =? Workout.id workout); auto.
  - apply Forall_map. eapply Forall_impl; [|exact workouts_fk0].
    simpl. intros w Hw. destruct (Workout.id w =? Workout.id workout); auto.
  - rewrite map_replace_id by reflexivity. assumption.
Qed.

Lemma delete_Workout_consistent workout db u db' :
  consistent db -> Session.delete_Workout workout db = inr (u, db') -> consistent db'.
Proof.
  intros [] H. unfold Session.delete_Workout in H. injection H as _ <-.
  constructor; simpl; auto; try (apply primary_key_delete; assumption).
  - rewrite Forall_forall in *. intros w Hw.
    apply In_delete_rows in Hw as [Hw _]. auto.
  - apply delete_children_fk. assumption.
  - apply delete_rows_fk; [assumption|]. intros e He [E|[]].
    apply in_map. apply filter_In. split; [exact He|]. apply Z.eqb_eq. auto.
Qed.

Lemma add_Exercise_consistent exercise db db_exercise db' :
  consistent db ->
  In (ExerciseCreate.workout_id exercise) (map Workout.id (workouts db)) ->
  Session.add_Exercise (new_Exercise exercise) db = inr (db_exercise, db') ->
  consistent db'.
Proof.
  intros [] Hfk H. unfold Session.add_Exercise in H. simpl in H.
  destruct (int64 _ && _ && _); [|discriminate].
  destruct (sqlite_real _); [|discriminate].
  injection H as <- <-. constructor; simpl; auto.
  - rewrite map_app. simpl. apply primary_key_insert. assumption.
  - apply insert_child_fk; assumption.
Qed.

Lemma delete_Exercise_consistent exercise db u db' :
  consistent db -> Session.delete_Exercise exercise db = inr (u, db') -> consistent db'.
Proof.
  intros [] H. unfold Session.delete_Exercise in H. injection H as _ <-.
  constructor; simpl; auto.
  - apply primary_key_delete. assumption.
  - apply delete_children_fk. assumption.
Qed.

Lemma add_Meal_consistent meal db db_meal db' :
  consistent db ->
  In (MealCreate.user_id meal) (map User.id (users db)) ->
  Session.add_Meal (new_Meal meal) db = inr (db_meal, db') ->
  consistent db'.
Proof.
  intros [] Hfk H. unfold Session.add_Meal in H. simpl in H.
  destruct (int64 _ && _); [|discriminate].
  destruct (sqlite_real (MealCreate.protein meal)); [|discriminate].
  destruct (sqlite_real (MealCreate.carbs meal)); [|discriminate].
  destruct (sqlite_real (MealCreate.fat meal)); [|discriminate].
  injection H as <- <-. constructor; simpl; auto.
  - rewrite map_app. simpl. apply primary_key_insert. assumption.
  - apply insert_child_fk; assumption.
Qed.

Lemma delete_Meal_consistent meal db u db' :
  consistent db -> Session.delete_Meal meal db = inr (u, db') -> consistent db'.
Proof.
  intros [] H. unfold Session.delete_Meal in H. injection H as _ <-.
  constructor; simpl; auto.
  - apply primary_key_delete. assumption.
  - apply delete_children_fk. assumption.
Qed.

(** ** Lookups inside the handlers *)

(** [db.query(Model).filter(Model.column == v).first()], then the rest of the
    handler. *)
Lemma lookup_int {R A} (table : Store -> list R) (column : R -> Z) v
    (k : option R -> Handler A) db :
  bind (Session.query table)
    (fun query =>
       bind (Session.execute
               (Query.first (Query.filter (Query.eq_int column v) query))) k) db
  = if int64 v || existsb (fun r => column r =? v) (table db)
    then k (first_where (fun r => column r =? v) (table db)) db
    else inl OverflowError.
Proof.
  unfold bind, Session.query, Session.execute, Query.first, Query.filter,
    Query.binds, first_where. simpl.
  destruct (int64 v || existsb _ (table db)); reflexivity.
Qed.

Lemma lookup_str {R A} (table : Store -> list R) (column : R -> string) v
    (k : option R -> Handler A) db :
  bind (Session.query table)
    (fun query =>
       bind (Session.execute
               (Query.first (Query.filter (Query.eq_str column v) query))) k) db
  = k (first_where (fun r => String.eqb (column r) v) (table db)) db.
Proof. reflexivity. Qed.

(** A value the column holds binds. *)
Lemma stored_binds {R} (column : R -> Z) rows r :
  In r rows ->
  int64 (column r) || existsb (fun x => column x =? column r) rows = true.
Proof.
  intros Hr. apply orb_true_iff. right. apply existsb_exists.
  exists r. split; [exact Hr|apply Z.eqb_refl].
Qed.

Lemma stored_value_binds {R} (column : R -> Z) rows v :
  In v (map column rows) ->
  int64 v || existsb (fun x => column x =? v) rows = true.
Proof.
  intros Hv. apply in_map_iff in Hv as (r & <- & Hr). apply stored_binds. exact Hr.
Qed.

Lemma fitting_binds {R} (column : R -> Z) (rows : list R) v :
  int64 v = true -> int64 v || existsb (fun x => column x =? v) rows = true.
Proof. intros ->. reflexivity. Qed.

Lemma run_consistent {A} (h : Handler A) db :
  consistent db ->
  (forall a db', h db = inr (a, db') -> consistent db') ->
  consistent (snd (run h db)).
Proof.
  intros Hdb Hh. unfold run. destruct (h db) as [e|[a db']] eqn:E; simpl; eauto.
Qed.

(** Unfolds a handler down to the row its first query found. *)
Ltac unfold_handler H :=
  cbv beta iota zeta delta [create_user delete_user create_workout update_workout
                            delete_workout create_exercise delete_exercise
                            create_meal delete_meal get_user get_workout get_meal]
    in H;
  first [rewrite lookup_int in H | rewrite lookup_str in H].

Ltac step_handler H :=
  unfold_handler H;
  try match type of H with
      | (if ?b then _ else _) = _ => destruct b; [|discriminate]
      end;
  match type of H with
  | context [first_where ?p ?rows] =>
      let E := fresh "Efirst" in
      destruct (first_where p rows) eqn:E;
      cbv beta iota zeta delta [bind raise ret] in H; try discriminate
  end.

Theorem serve_consistent r db : consistent db -> consistent (serve r db).
Proof.
  intros Hdb. destruct r; simpl; apply run_consistent; auto; intros a db' H;
    step_handler H.
  - destruct (Session.add_User _ _ _) as [|[row db'']] eqn:E; [discriminate|].
    injection H as _ <-. eapply add_User_consistent; eauto.
  - destruct a. eapply delete_User_consistent; eauto.
  - destruct (Session.add_Workout _ _) as [|[row db'']] eqn:E; [discriminate|].
    injection H as _ <-. eapply add_Workout_consistent; eauto.
    apply first_filter_Some in Efirst as [Hu Hid]. apply Z.eqb_eq in Hid.
    rewrite <- Hid. apply in_map. exact Hu.
  - destruct (Session.commit_Workout _ _) as [|[row db'']] eqn:E; [discriminate|].
    injection H as _ <-. eapply commit_Workout_consistent; eauto.
    rewrite fold_setattr_user_id.
    apply first_filter_Some in Efirst as [Hw _].
    destruct Hdb as [_ _ _ _ _ _ _ Hfk _ _]. rewrite Forall_forall in Hfk. auto.
  - destruct a. eapply delete_Workout_consistent; eauto.
  - destruct (Session.add_Exercise _ _) as [|[row db'']] eqn:E; [discriminate|].
    injection H as _ <-. eapply add_Exercise_consistent; eauto.
    apply first_filter_Some in Efirst as [Hw Hid]. apply Z.eqb_eq in Hid.
    rewrite <- Hid. apply in_map. exact Hw.
  - destruct a. eapply delete_Exercise_consistent; eauto.
  - destruct (Session.add_Meal _ _) as [|[row db'']] eqn:E; [discriminate|].
    injection H as _ <-. eapply add_Meal_consistent; eauto.
    apply first_filter_Some in Efirst as [Hu Hid]. apply Z.eqb_eq in Hid.
    rewrite <- Hid. apply in_map. exact Hu.
  - destruct a. eapply delete_Meal_consistent; eauto.
Qed.

Lemma empty_store_consistent : consistent empty_store.
Proof.
  constructor; simpl; try constructor; try (repeat constructor; fail).
Qed.

Theorem reachable_consistent db : reachable db -> consistent db.
Proof.
  induction 1 as [|db r _ IH].
  - apply empty_store_consistent.
  - apply serve_consistent. exact IH.
Qed.

(** ** The sample database is one the API produces *)

Lemma reachable_fold requests db :
  reachable db -> reachable (fold_left (fun db r => serve r db) requests db).
Proof.
  revert db. induction requests as [|r l IH]; simpl; intros db H; auto.
  apply IH. constructor. exact H.
Qed.

Lemma sample_reachable : reachable Sample.db.
Proof.
  change Sample.db
    with (fold_left (fun db r => serve r db) Sample.requests empty_store).
  apply reachable_fold. constructor.
Qed.

Lemma sample_consistent : consistent Sample.db.
Proof. apply reachable_consistent, sample_reachable. Qed.

(** ** The claims *)

Lemma consistent_no_orphans db : consistent db -> no_orphans db.
Proof. intros []. repeat split; assumption. Qed.

(** C1. Deleting a stored user succeeds and removes the user, exactly the
    workouts and meals whose [user_id] is the user's id, and exactly the
    exercises of those workouts; rows of other users stay, and the database
    that had no orphan rows before has none afterwards. *)
Theorem delete_user_cascades db user :
  consistent db -> In user (users db) ->
  exists db',
    run (delete_user (User.id user)) db = (inr tt, db')
    /\ (forall u, In u (users db') <->
                  In u (users db) /\ User.id u <> User.id user)
    /\ (forall w, In w (workouts db') <->
                  In w (workouts db) /\ Workout.user_id w <> User.id user)
    /\ (forall e, In e (exercises db') <->
                  In e (exercises db)
                  /\ forall w, In w (workouts db) ->
                               Workout.user_id w = User.id user ->
                               Exercise.workout_id e <> Workout.id w)
    /\ (forall m, In m (meals db') <->
                  In m (meals db) /\ Meal.user_id m <> User.id user)
    /\ no_orphans db'.
Proof.
  intros Hdb Huser.
  assert (delete_user (User.id user) db = Session.delete_User user db) as Hrun.
  { unfold delete_user. rewrite lookup_int, stored_binds by exact Huser.
    rewrite (first_by_id User.id _ _ (users_pk _ Hdb) Huser). reflexivity. }
  unfold run. rewrite Hrun.
  destruct (Session.delete_User user db) as [e|[[] db']] eqn:E;
    [discriminate|].
  exists db'. split; [reflexivity|].
  pose proof (delete_User_consistent _ _ _ _ Hdb E) as Hdb'.
  unfold Session.delete_User in E. injection E as <-. simpl.
  repeat split; try (apply consistent_no_orphans in Hdb'; apply Hdb').
  - apply In_delete_rows in H. tauto.
  - apply In_delete_rows in H. simpl in H. intros Heq. apply H. auto.
  - intros [Hu Hne]. apply In_delete_rows. simpl. split; [exact Hu|].
    intros [Heq|[]]. auto.
  - apply In_delete_rows in H. tauto.
  - apply In_delete_rows in H as [Hw Hkeep]. intros Heq. apply Hkeep.
    apply in_map. apply filter_In. split; [exact Hw|]. apply Z.eqb_eq. exact Heq.
  - intros [Hw Hne]. apply In_delete_rows. split; [exact Hw|].
    intros Hin. apply in_map_iff in Hin as (w' & Hid & Hw').
    apply filter_In in Hw' as [Hw' Huid]. apply Z.eqb_eq in Huid.
    assert (w' = w) by (apply (primary_key_inj Workout.id (workouts db)); auto using workouts_pk).
    subst. contradiction.
  - apply In_delete_rows in H. tauto.
  - apply In_delete_rows in H as [He Hkeep]. intros w Hw Huid Heq. apply Hkeep.
    apply in_map. apply in_flat_map. exists w. split.
    + apply filter_In. split; [exact Hw|]. apply Z.eqb_eq. exact Huid.
    + apply filter_In. split; [exact He|]. apply Z.eqb_eq. exact Heq.
  - intros [He Hne]. apply In_delete_rows. split; [exact He|].
    intros Hin. apply in_map_iff in Hin as (e' & Hid & He').
    apply in_flat_map in He' as (w & Hw & He').
    apply filter_In in Hw as [Hw Huid]. apply Z.eqb_eq in Huid.
    apply filter_In in He' as [He' Hwid]. apply Z.eqb_eq in Hwid.
    assert (e' = e) by (apply (primary_key_inj Exercise.id (exercises db)); auto using exercises_pk).
    subst. exact (Hne w Hw Huid Hwid).
  - apply In_delete_rows in H. tauto.
  - apply In_delete_rows in H as [Hm Hkeep]. intros Heq. apply Hkeep.
    apply in_map. apply filter_In. split; [exact Hm|]. apply Z.eqb_eq. exact Heq.
  - intros [Hm Hne]. apply In_delete_rows. split; [exact Hm|].
    intros Hin. apply in_map_iff in Hin as (m' & Hid & Hm').
    apply filter_In in Hm' as [Hm' Huid]. apply Z.eqb_eq in Huid.
    assert (m' = m) by (apply (primary_key_inj Meal.id (meals db)); auto using meals_pk).
    subst. contradiction.
Qed.

Lemma delete_user_cascades_witness :
  consistent Sample.db /\ In Sample.ann_row (users Sample.db)
  /\ exists db',
       run (delete_user 1) Sample.db = (inr tt, db')
       /\ (forall w, In w (workouts db') -> Workout.user_id w <> 1)
       /\ (forall e, In e (exercises db') -> Exercise.workout_id e <> 1)
       /\ (forall m, In m (meals db') -> Meal.user_id m <> 1)
       /\ no_orphans db'.
Proof.
  assert (In Sample.ann_row (users Sample.db)) as Hin by (simpl; auto).
  split; [exact sample_consistent|]. split; [exact Hin|].
  destruct (delete_user_cascades Sample.db Sample.ann_row sample_consistent Hin)
    as (db' & Hrun & _ & Hw & He & Hm & Horphans).
  exists db'. split; [exact Hrun|]. split; [|split; [|split]].
  - intros w H. apply Hw in H. apply H.
  - intros e H. apply He in H as [_ H].
    apply (H Sample.ann_run); simpl; auto.
  - intros m H. apply Hm in H. apply H.
  - exact Horphans.
Defined.

Lemma first_by_missing_id {R} (id : R -> Z) rows x :
  ~ In x (map id rows) ->
  first_where (fun r => id r =? x) rows = None.
Proof.
  intros Hx. destruct (first_where _ rows) as [r|] eqn:E; [|reflexivity].
  apply first_filter_Some in E as [Hr Hid]. apply Z.eqb_eq in Hid.
  exfalso. apply Hx. rewrite <- Hid. apply in_map. exact Hr.
Qed.

(** C2 as stated fails at a parent id the driver cannot bind: the lookup of
    user 2^63 raises OverflowError, not the 404. *)
Lemma create_without_parent_counterexample :
  ~ In Sample.too_big (map User.id (users Sample.db))
  /\ run (create_workout (Sample.run_30 Sample.too_big)) Sample.db
     = (inl OverflowError, Sample.db)
  /\ fst (run (create_workout (Sample.run_30 Sample.too_big)) Sample.db)
     <> inl (HTTPException HTTP_404_NOT_FOUND "User not found").
Proof.
  split; [|split].
  - simpl. unfold Sample.too_big. lia.
  - reflexivity.
  - discriminate.
Qed.

(** C2, amended. Creating a workout, an exercise or a meal whose parent id
    fits in a signed 64-bit integer and is not the id of a stored parent row
    raises the 404 of the handler and leaves the database as it was. *)
Theorem create_without_parent_not_found db :
  (forall workout,
      int64 (WorkoutCreate.user_id workout) = true ->
      ~ In (WorkoutCreate.user_id workout) (map User.id (users db)) ->
      run (create_workout workout) db
      = (inl (HTTPException HTTP_404_NOT_FOUND "User not found"), db))
  /\ (forall exercise,
         int64 (ExerciseCreate.workout_id exercise) = true ->
         ~ In (ExerciseCreate.workout_id exercise) (map Workout.id (workouts db)) ->
         run (create_exercise exercise) db
         = (inl (HTTPException HTTP_404_NOT_FOUND "Workout not found"), db))
  /\ (forall meal,
         int64 (MealCreate.user_id meal) = true ->
         ~ In (MealCreate.user_id meal) (map User.id (users db)) ->
         run (create_meal meal) db
         = (inl (HTTPException HTTP_404_NOT_FOUND "User not found"), db)).
Proof.
  repeat split; intros req Hfits Hmissing;
    unfold run, create_workout, create_exercise, create_meal;
    rewrite lookup_int, fitting_binds by exact Hfits;
    rewrite (first_by_missing_id _ _ _ Hmissing); reflexivity.
Qed.

Lemma create_without_parent_not_found_witness :
  run (create_workout (Sample.run_30 7)) Sample.db
  = (inl (HTTPException 404 "User not found"), Sample.db)
  /\ run (create_exercise (Sample.pushup 7)) Sample.db
     = (inl (HTTPException 404 "Workout not found"), Sample.db)
  /\ run (create_meal (Sample.lunch 7)) Sample.db
     = (inl (HTTPException 404 "User not found"), Sample.db).
Proof.
  destruct (create_without_parent_not_found Sample.db) as (Hw & He & Hm).
  split; [|split].
  - apply (Hw (Sample.run_30 7)); [reflexivity|]. simpl. lia.
  - apply (He (Sample.pushup 7)); [reflexivity|]. simpl. lia.
  - apply (Hm (Sample.lunch 7)); [reflexivity|]. simpl. lia.
Defined.

Lemma count_where_none {R} (p : R -> bool) rows :
  (forall r, In r rows -> p r = false) -> count_where p rows = 0%nat.
Proof.
  unfold count_where. induction rows as [|x l IH]; simpl; intros H; auto.
  rewrite (H x) by auto. auto.
Qed.

(** A value of a UNIQUE column that is stored is stored exactly once. *)
Lemma count_where_unique {R} (column : R -> string) rows r :
  NoDup (map column rows) -> In r rows ->
  count_where (fun x => String.eqb (column x) (column r)) rows = 1%nat.
Proof.
  induction rows as [|x l IH]; simpl; [tauto|].
  intros Hnd Hr. inversion Hnd as [|? ? Hx Hl]; subst.
  unfold count_where in *. simpl.
  destruct (String.eqb_spec (column x) (column r)) as [E|E].
  - simpl. f_equal. apply (count_where_none _ l). intros y Hy.
    apply String.eqb_neq. intros Ey. apply Hx. rewrite E, <- Ey.
    apply in_map. exact Hy.
  - destruct Hr as [->|Hr]; [contradiction|]. auto.
Qed.

(** C3. A create-user request whose email is the email of a stored user is
    refused with the 400 "Email already registered", the database is left as
    it was, the stored user is still returned by [get_user], and exactly one
    row carries that email. *)
Theorem create_user_duplicate_email db stored user now :
  consistent db -> In stored (users db) ->
  UserCreate.email user = User.email stored ->
  let (response, db') := run (create_user user now) db in
  response = inl (HTTPException HTTP_400_BAD_REQUEST "Email already registered")
  /\ db' = db
  /\ run (get_user (User.id stored)) db' = (inr stored, db')
  /\ count_where (fun u => String.eqb (User.email u) (UserCreate.email user))
       (users db') = 1%nat.
Proof.
  intros Hdb Hstored Hemail.
  destruct (first_filter_exists
              (fun u => String.eqb (User.email u) (UserCreate.email user))
              (users db) stored Hstored) as [found Hfound].
  { rewrite Hemail. apply String.eqb_refl. }
  unfold run at 1, create_user. rewrite lookup_str, Hfound. simpl.
  split; [reflexivity|]. split; [reflexivity|]. split.
  - unfold run, get_user. rewrite lookup_int, stored_binds by exact Hstored.
    rewrite (first_by_id User.id _ _ (users_pk _ Hdb) Hstored). reflexivity.
  - rewrite Hemail. apply count_where_unique; [apply email_unique|]; assumption.
Qed.

Lemma create_user_duplicate_email_witness :
  run (create_user Sample.ann Sample.noon) Sample.db
  = (inl (HTTPException 400 "Email already registered"), Sample.db)
  /\ run (get_user 1) Sample.db = (inr Sample.ann_row, Sample.db)
  /\ count_where (fun u => String.eqb (User.email u) "ann@x.com")
       (users Sample.db) = 1%nat.
Proof.
  assert (In Sample.ann_row (users Sample.db)) as Hin by (simpl; auto).
  pose proof (create_user_duplicate_email Sample.db Sample.ann_row Sample.ann
                Sample.noon sample_consistent Hin eq_refl) as H.
  destruct (run (create_user Sample.ann Sample.noon) Sample.db) as [response db'].
  destruct H as (-> & -> & Hget & Hcount). auto.
Defined.

(** ** Partial update of a workout *)

Lemma float_eqb_eq x y : float_eqb x y = true <-> x = y.
Proof.
  split.
  - destruct x, y; simpl; try discriminate; try reflexivity.
    + intros H. apply eqb_prop in H. congruence.
    + intros H. apply eqb_prop in H. congruence.
    + intros H. apply andb_prop in H as [H He]. apply andb_prop in H as [Hs Hm].
      apply eqb_prop in Hs. apply Pos.eqb_eq in Hm. apply Z.eqb_eq in He. congruence.
  - intros <-. destruct x; simpl; auto using eqb_reflx.
    rewrite eqb_reflx, Pos.eqb_refl, Z.eqb_refl. reflexivity.
Qed.

Lemma same_float_eq a b : same float_eqb a b = true <-> a = b.
Proof.
  destruct a as [x|], b as [y|]; simpl; try (split; (discriminate || reflexivity)).
  rewrite float_eqb_eq. split; congruence.
Qed.

Lemma same_Z_eq a b : same Z.eqb a b = true <-> a = b.
Proof.
  destruct a as [x|], b as [y|]; simpl; try (split; (discriminate || reflexivity)).
  rewrite Z.eqb_eq. split; congruence.
Qed.

Lemma same_float_refl a : same float_eqb a a = true.
Proof. apply same_float_eq. reflexivity. Qed.

Lemma same_Z_refl a : same Z.eqb a a = true.
Proof. apply same_Z_eq. reflexivity. Qed.

Lemma assigned_fields u workout :
  assigned u workout =
  {| Workout.id := Workout.id workout;
     Workout.user_id := Workout.user_id workout;
     Workout.type := patched (WorkoutUpdate.type u) (Workout.type workout);
     Workout.duration_min :=
       patched (WorkoutUpdate.duration_min u) (Workout.duration_min workout);
     Workout.distance_km :=
       patched (WorkoutUpdate.distance_km u) (Workout.distance_km workout);
     Workout.avg_pace := patched (WorkoutUpdate.avg_pace u) (Workout.avg_pace workout);
     Workout.date := match WorkoutUpdate.date u with
                     | Unset => Workout.date workout
                     | Supplied _ => None
                     end;
     Workout.is_starred :=
       patched (WorkoutUpdate.is_starred u) (Workout.is_starred workout) |}.
Proof.
  destruct workout, u as [[|] [|] [|] [|] [|] [|]]; reflexivity.
Qed.

Lemma assigned_id u workout : Workout.id (assigned u workout) = Workout.id workout.
Proof. apply fold_setattr_id. Qed.

Lemma assigned_user_id u workout :
  Workout.user_id (assigned u workout) = Workout.user_id workout.
Proof. apply fold_setattr_user_id. Qed.

Lemma assigned_not_null u workout :
  workout_not_null workout = true ->
  workout_not_null (assigned u workout) = negb (nulls_required u).
Proof.
  rewrite assigned_fields. unfold workout_not_null, nulls_required. simpl.
  destruct (Workout.type workout), (Workout.duration_min workout),
    (Workout.date workout); try discriminate.
  intros _.
  destruct (WorkoutUpdate.type u) as [|[|]],
    (WorkoutUpdate.duration_min u) as [|[|]],
    (WorkoutUpdate.date u) as [|[[]|]]; reflexivity.
Qed.

Lemma flushed_omitted_kept u workout :
  omitted_kept u workout (flushed workout (assigned u workout)).
Proof.
  rewrite assigned_fields. unfold omitted_kept, flushed. simpl.
  repeat split; intros ->; simpl; try reflexivity.
  - rewrite same_float_refl. reflexivity.
  - rewrite same_float_refl. reflexivity.
Qed.

Lemma flushed_supplied_stored u workout :
  supplied_stored u workout (flushed workout (assigned u workout)).
Proof.
  rewrite assigned_fields. unfold supplied_stored, flushed. simpl.
  repeat split; intros v ->; simpl; try reflexivity.
  - destruct (same float_eqb (Workout.distance_km workout) v) eqn:E; [|auto].
    apply same_float_eq in E. auto.
  - destruct (same float_eqb (Workout.avg_pace workout) v) eqn:E; [|auto].
    apply same_float_eq in E. auto.
Qed.

Lemma fitting_duration u workout :
  duration_fits u = true -> duration_overflows workout (assigned u workout) = false.
Proof.
  rewrite assigned_fields. unfold duration_fits, duration_overflows. simpl.
  destruct (WorkoutUpdate.duration_min u) as [|v]; simpl.
  - rewrite same_Z_refl. reflexivity.
  - intros ->. apply andb_false_r.
Qed.

(** The row found under an id binds that id. *)
Lemma found_binds {R} (column : R -> Z) rows v r :
  first_where (fun x => column x =? v) rows = Some r ->
  int64 v || existsb (fun x => column x =? v) rows = true.
Proof.
  intros H. apply first_filter_Some in H as [Hr Hv]. apply Z.eqb_eq in Hv.
  subst v. apply stored_binds. exact Hr.
Qed.

Lemma get_workout_found db workout_id workout :
  run (get_workout workout_id) db = (inr workout, db) <->
  first_where (fun w => Workout.id w =? workout_id) (workouts db) = Some workout.
Proof.
  unfold run, get_workout. rewrite lookup_int. split.
  - destruct (int64 workout_id || existsb _ (workouts db)); [|discriminate].
    unfold raise, ret. destruct (first_where _ (workouts db)); congruence.
  - intros H. rewrite (found_binds _ _ _ _ H), H. reflexivity.
Qed.

Lemma first_after_replace rows workout_id workout new :
  first_where (fun w => Workout.id w =? workout_id) rows = Some workout ->
  Workout.id new = workout_id ->
  first_where (fun w => Workout.id w =? workout_id)
    (map (fun w => if Workout.id w =? workout_id then new else w) rows)
  = Some new.
Proof.
  intros H <-. unfold first_where in *.
  induction rows as [|x l IH]; simpl in *; [discriminate|].
  destruct (Z.eqb_spec (Workout.id x) (Workout.id new)) as [E|E]; simpl.
  - rewrite Z.eqb_refl. reflexivity.
  - destruct (Z.eqb_spec (Workout.id x) (Workout.id new)); [contradiction|]. auto.
Qed.

Lemma first_other_after_replace rows other key new :
  Workout.id new = key -> key <> other ->
  first_where (fun w => Workout.id w =? other)
    (map (fun w => if Workout.id w =? key then new else w) rows)
  = first_where (fun w => Workout.id w =? other) rows.
Proof.
  intros <- Hne. unfold first_where.
  induction rows as [|x l IH]; simpl; [reflexivity|].
  destruct (Z.eqb_spec (Workout.id x) (Workout.id new)) as [E|E]; simpl.
  - destruct (Z.eqb_spec (Workout.id new) other); [contradiction|].
    destruct (Z.eqb_spec (Workout.id x) other); [congruence|]. exact IH.
  - destruct (Workout.id x =? other); [reflexivity|exact IH].
Qed.

(** The response and the database of [update_workout], case by case. *)
Lemma update_workout_cases db workout_id u :
  (int64 workout_id || existsb (fun w => Workout.id w =? workout_id) (workouts db)
   = false
   /\ run (update_workout workout_id u) db = (inl OverflowError, db))
  \/ (first_where (fun w => Workout.id w =? workout_id) (workouts db) = None
      /\ run (update_workout workout_id u) db
         = (inl (HTTPException HTTP_404_NOT_FOUND "Workout not found"), db))
  \/ (exists workout,
        first_where (fun w => Workout.id w =? workout_id) (workouts db) = Some workout
        /\ Workout.id workout = workout_id
        /\ ((exists e, run (update_workout workout_id u) db = (inl e, db)
                       /\ (duration_overflows workout (assigned u workout) = true
                           \/ workout_not_null (assigned u workout) = false))
            \/ (duration_overflows workout (assigned u workout) = false
                /\ workout_not_null (assigned u workout) = true
                /\ run (update_workout workout_id u) db
                   = (inr (flushed workout (assigned u workout)),
                      replace_workout db workout_id
                        (flushed workout (assigned u workout)))))).
Proof.
  unfold run, update_workout. rewrite lookup_int.
  destruct (int64 workout_id || existsb _ (workouts db)) eqn:Hbinds; [|auto].
  right. destruct (first_where _ (workouts db)) as [workout|] eqn:E; [right|left; auto].
  exists workout. split; [reflexivity|].
  pose proof E as Hid. apply first_filter_Some in Hid as [_ Hid].
  apply Z.eqb_eq in Hid. split; [exact Hid|].
  fold (assigned u workout). unfold bind, Session.commit_Workout, ret.
  rewrite assigned_id, Hid. fold (first_where (fun w => Workout.id w =? workout_id)
                                    (workouts db)).
  rewrite E.
  destruct (duration_overflows workout (assigned u workout)); [left; eauto|].
  destruct (workout_not_null (assigned u workout)); [right; auto|left; eauto].
Qed.

(** The workouts after a stored row was rewritten: the new row, and every row
    of another id. *)
Lemma In_replace_workout db workout row w :
  consistent db -> In workout (workouts db) -> Workout.id row = Workout.id workout ->
  In w (workouts (replace_workout db (Workout.id workout) row)) <->
  w = row \/ (In w (workouts db) /\ Workout.id w <> Workout.id workout).
Proof.
  intros Hdb Hin Hrow. simpl. rewrite in_map_iff. split.
  - intros (x & Hx & Hxin).
    destruct (Z.eqb_spec (Workout.id x) (Workout.id workout)); subst; auto.
  - intros [->|[Hw Hne]].
    + exists workout. rewrite Z.eqb_refl. auto.
    + exists w. destruct (Z.eqb_spec (Workout.id w) (Workout.id workout)); [contradiction|].
      auto.
Qed.

Lemma In_same_workouts db workout w :
  consistent db -> In workout (workouts db) ->
  In w (workouts db) <->
  w = workout \/ (In w (workouts db) /\ Workout.id w <> Workout.id workout).
Proof.
  intros Hdb Hin. split.
  - intros Hw. destruct (Z.eq_dec (Workout.id w) (Workout.id workout)) as [E|E]; auto.
    left. apply (primary_key_inj Workout.id (workouts db)); auto using workouts_pk.
  - intros [->|[Hw _]]; assumption.
Qed.

(** C4 as stated fails when the commit is refused: the body sets
    [duration_min] to 45 and [type] to null, the NOT NULL constraint on [type]
    stops the UPDATE, and the workout keeps its 30 minutes. *)
Lemma update_workout_partial_counterexample :
  WorkoutUpdate.duration_min PatchSample.longer_without_type = Supplied (Some 45)
  /\ run (update_workout 1 PatchSample.longer_without_type) Sample.db
     = (inl (IntegrityError "NOT NULL constraint failed: workouts.type"), Sample.db)
  /\ run (get_workout 1) Sample.db = (inr Sample.ann_run, Sample.db)
  /\ Workout.duration_min Sample.ann_run = Some 30.
Proof. repeat split. Qed.

(** C4, amended. After a PATCH on a stored workout the next [get_workout]
    shows every omitted field at its prior value, only the row of that id is
    rewritten, and the other tables are untouched. A body that supplies no
    null for [type] or [duration_min], no [date] (whose only value is null)
    and a [duration_min] that fits in 64 bits is accepted: the handler
    returns the row [get_workout] then returns, and every supplied field
    holds the supplied value as the database stores it. A body that supplies
    such a null is refused and changes nothing. *)
Theorem update_workout_partial db workout u :
  consistent db -> In workout (workouts db) ->
  let (response, db') := run (update_workout (Workout.id workout) u) db in
  exists after,
    run (get_workout (Workout.id workout)) db' = (inr after, db')
    /\ omitted_kept u workout after
    /\ (forall w, In w (workouts db') <->
                  w = after
                  \/ (In w (workouts db) /\ Workout.id w <> Workout.id workout))
    /\ users db' = users db
    /\ exercises db' = exercises db
    /\ meals db' = meals db
    /\ (nulls_required u = false -> duration_fits u = true ->
        response = inr after /\ supplied_stored u workout after)
    /\ (nulls_required u = true ->
        (exists e, response = inl e) /\ after = workout /\ db' = db).
Proof.
  intros Hdb Hin.
  pose proof (first_by_id Workout.id _ _ (workouts_pk _ Hdb) Hin) as Hfound.
  assert (workout_not_null workout = true) as Hnn.
  { pose proof (workouts_not_null _ Hdb) as H. rewrite Forall_forall in H. auto. }
  pose proof (assigned_not_null u workout Hnn) as Hnull.
  destruct (update_workout_cases db (Workout.id workout) u)
    as [[Hbinds _]|[[Hnone _]|(found & Hfound' & _ & Hcases)]].
  - rewrite stored_binds in Hbinds by exact Hin. discriminate.
  - congruence.
  - rewrite Hfound in Hfound'. injection Hfound' as <-.
    destruct Hcases as [(e & Hrun & Hwhy)|(Hfits & Hok & Hrun)]; rewrite Hrun.
    + exists workout. split; [apply get_workout_found; exact Hfound|].
      split; [unfold omitted_kept; tauto|].
      split; [intros w; apply In_same_workouts; assumption|].
      split; [reflexivity|]. split; [reflexivity|]. split; [reflexivity|]. split.
      * intros Hn Hf. exfalso. destruct Hwhy as [Hover|Hbad].
        -- rewrite fitting_duration in Hover by assumption. discriminate.
        -- rewrite Hnull, Hn in Hbad. discriminate.
      * intros Hn. eauto.
    + exists (flushed workout (assigned u workout)).
      split.
      { apply get_workout_found. simpl.
        apply (first_after_replace _ _ workout); [exact Hfound|].
        simpl. apply assigned_id. }
      split; [apply flushed_omitted_kept|].
      split.
      { intros w. apply In_replace_workout; auto. simpl. apply assigned_id. }
      split; [reflexivity|]. split; [reflexivity|]. split; [reflexivity|]. split.
      * intros _ _. split; [reflexivity|apply flushed_supplied_stored].
      * intros Hn. rewrite Hnull, Hn in Hok. discriminate.
Qed.

Lemma update_workout_partial_witness :
  consistent Sample.db /\ In Sample.ann_run (workouts Sample.db)
  /\ exists after db',
       run (update_workout 1 PatchSample.longer_and_starred) Sample.db
       = (inr after, db')
       /\ run (get_workout 1) db' = (inr after, db')
       /\ omitted_kept PatchSample.longer_and_starred Sample.ann_run after
       /\ supplied_stored PatchSample.longer_and_starred Sample.ann_run after
       /\ Workout.duration_min after = Some 45.
Proof.
  assert (In Sample.ann_run (workouts Sample.db)) as Hin by (simpl; auto).
  split; [exact sample_consistent|]. split; [exact Hin|].
  pose proof (update_workout_partial Sample.db Sample.ann_run
                PatchSample.longer_and_starred sample_consistent Hin) as H.
  change (Workout.id Sample.ann_run) with 1 in H.
  destruct (run (update_workout 1 PatchSample.longer_and_starred) Sample.db)
    as [response db'].
  destruct H as (after & Hafter & Hkept & _ & _ & _ & _ & Hok & _).
  destruct (Hok eq_refl eq_refl) as [-> Hstored].
  exists after, db'. split; [reflexivity|]. split; [exact Hafter|].
  split; [exact Hkept|]. split; [exact Hstored|].
  destruct Hstored as (_ & Hduration & _). apply (Hduration (Some 45)). reflexivity.
Defined.

(** C9. A PATCH cannot move a workout: no assignment of the update data
    touches [id] or [user_id], so after the request the workout is still found
    under its id with the same [user_id], and the ids and owners of all stored
    workouts are what they were. *)
Theorem update_workout_keeps_owner db workout u :
  consistent db -> In workout (workouts db) ->
  let (response, db') := run (update_workout (Workout.id workout) u) db in
  (exists after,
      run (get_workout (Workout.id workout)) db' = (inr after, db')
      /\ Workout.id after = Workout.id workout
      /\ Workout.user_id after = Workout.user_id workout)
  /\ (forall returned, response = inr returned ->
        Workout.id returned = Workout.id workout
        /\ Workout.user_id returned = Workout.user_id workout)
  /\ map (fun w => (Workout.id w, Workout.user_id w)) (workouts db')
     = map (fun w => (Workout.id w, Workout.user_id w)) (workouts db)
  /\ (forall w kv, In kv (WorkoutUpdate.model_dump_exclude_unset u) ->
        Workout.id (setattr w kv) = Workout.id w
        /\ Workout.user_id (setattr w kv) = Workout.user_id w).
Proof.
  intros Hdb Hin.
  pose proof (first_by_id Workout.id _ _ (workouts_pk _ Hdb) Hin) as Hfound.
  assert (forall w kv, In kv (WorkoutUpdate.model_dump_exclude_unset u) ->
            Workout.id (setattr w kv) = Workout.id w
            /\ Workout.user_id (setattr w kv) = Workout.user_id w) as Hset.
  { intros w kv _. split; [apply setattr_id|apply setattr_user_id]. }
  destruct (update_workout_cases db (Workout.id workout) u)
    as [[Hbinds _]|[[Hnone _]|(found & Hfound' & _ & Hcases)]].
  - rewrite stored_binds in Hbinds by exact Hin. discriminate.
  - congruence.
  - rewrite Hfound in Hfound'. injection Hfound' as <-.
    destruct Hcases as [(e & Hrun & _)|(_ & _ & Hrun)]; rewrite Hrun.
    + split; [|split; [|split]]; auto.
      * exists workout. split; [apply get_workout_found; exact Hfound|]. auto.
      * intros returned [=].
    + split; [|split; [|split]]; auto.
      * exists (flushed workout (assigned u workout)). split; [|split].
        -- apply get_workout_found. simpl.
           apply (first_after_replace _ _ workout); [exact Hfound|].
           simpl. apply assigned_id.
        -- simpl. apply assigned_id.
        -- simpl. apply assigned_user_id.
      * intros returned [= <-]. simpl.
        split; [apply assigned_id|apply assigned_user_id].
      * simpl. rewrite map_map. apply map_ext_in. intros w Hw.
        destruct (Z.eqb_spec (Workout.id w) (Workout.id workout)) as [Heq|]; auto.
        simpl. rewrite assigned_id, assigned_user_id.
        rewrite (primary_key_inj Workout.id _ _ _ (workouts_pk _ Hdb) Hw Hin Heq).
        reflexivity.
Qed.

Lemma update_workout_keeps_owner_witness :
  consistent Sample.db /\ In Sample.ann_run (workouts Sample.db)
  /\ exists after,
       run (get_workout 1)
         (snd (run (update_workout 1 PatchSample.longer_and_starred) Sample.db))
       = (inr after,
          snd (run (update_workout 1 PatchSample.longer_and_starred) Sample.db))
       /\ Workout.id after = 1 /\ Workout.user_id after = 1.
Proof.
  assert (In Sample.ann_run (workouts Sample.db)) as Hin by (simpl; auto).
  split; [exact sample_consistent|]. split; [exact Hin|].
  pose proof (update_workout_keeps_owner Sample.db Sample.ann_run
                PatchSample.longer_and_starred sample_consistent Hin) as H.
  change (Workout.id Sample.ann_run) with 1 in H.
  change (Workout.user_id Sample.ann_run) with 1 in H.
  destruct (run (update_workout 1 PatchSample.longer_and_starred) Sample.db)
    as [response db'].
  destruct H as [Hafter _]. exact Hafter.
Defined.
(** ** Creating users *)

Lemma existsb_none {R} (p : R -> bool) rows :
  (forall r, In r rows -> p r = false) -> existsb p rows = false.
Proof.
  intros H. destruct (existsb p rows) eqn:E; [|reflexivity].
  apply existsb_exists in E as (r & Hr & Hp). rewrite (H r Hr) in Hp. discriminate.
Qed.

Lemma first_filter_all_false {R} (p : R -> bool) rows :
  (forall r, In r rows -> p r = false) -> first_where p rows = None.
Proof.
  intros H. destruct (first_where p rows) as [r|] eqn:E; [|reflexivity].
  apply first_filter_Some in E as [Hr Hp]. rewrite (H r Hr) in Hp. discriminate.
Qed.

(** A request that collides with no stored email and no stored google_id
    inserts its row under the next rowid. *)
Lemma create_user_fresh db user now :
  (forall u, In u (users db) ->
     User.email u <> UserCreate.email user
     /\ same_google_id (User.google_id u) (UserCreate.google_id user) = false) ->
  let row := new_User user (next_rowid (map User.id (users db))) now in
  run (create_user user now) db = (inr row, with_user db row).
Proof.
  intros Hfresh row.
  unfold run, create_user. rewrite lookup_str.
  rewrite first_filter_all_false.
  2:{ intros u Hu. apply String.eqb_neq. apply (Hfresh u Hu). }
  unfold bind, Session.add_User, ret. simpl. rewrite existsb_none.
  2:{ intros u Hu. apply String.eqb_neq. apply (Hfresh u Hu). }
  rewrite existsb_none.
  2:{ intros u Hu. apply (Hfresh u Hu). }
  reflexivity.
Qed.

(** A request with a new email whose google_id is already stored gets past
    the handler's email check and is stopped by the database. *)
Lemma create_user_google_id_collision db stored user now :
  In stored (users db) ->
  (forall u, In u (users db) -> User.email u <> UserCreate.email user) ->
  same_google_id (User.google_id stored) (UserCreate.google_id user) = true ->
  run (create_user user now) db
  = (inl (IntegrityError "UNIQUE constraint failed: users.google_id"), db).
Proof.
  intros Hstored Hemail Hgoogle.
  unfold run, create_user. rewrite lookup_str.
  rewrite first_filter_all_false.
  2:{ intros u Hu. apply String.eqb_neq. apply (Hemail u Hu). }
  unfold bind, Session.add_User, ret. simpl. rewrite existsb_none.
  2:{ intros u Hu. apply String.eqb_neq. apply (Hemail u Hu). }
  assert (existsb (fun u => same_google_id (User.google_id u)
                              (UserCreate.google_id user)) (users db) = true) as E.
  { apply existsb_exists. eauto. }
  rewrite E. reflexivity.
Qed.

(** C5. Carol's request carries a new email and the google_id of the stored
    user Ann: the handler raises no HTTPException, [db.commit()] raises the
    IntegrityError of the UNIQUE constraint, and no row is inserted. *)
Theorem create_user_duplicate_google_id :
  same_google_id (User.google_id Sample.ann_row) (UserCreate.google_id Sample.carol)
  = true
  /\ run (create_user Sample.carol Sample.noon) Sample.db
     = (inl (IntegrityError "UNIQUE constraint failed: users.google_id"), Sample.db)
  /\ forall detail,
       fst (run (create_user Sample.carol Sample.noon) Sample.db)
       <> inl (HTTPException HTTP_400_BAD_REQUEST detail).
Proof.
  split; [reflexivity|]. split; [reflexivity|]. intros detail. discriminate.
Qed.

(** C10 as stated fails: Ann's and Carol's emails differ, yet on an empty
    database the second creation is refused, because both requests carry the
    same google_id; one row is stored. *)
Lemma distinct_emails_counterexample :
  UserCreate.email Sample.ann <> UserCreate.email Sample.carol
  /\ exists row db',
       run (create_user Sample.ann Sample.noon) empty_store = (inr row, db')
       /\ run (create_user Sample.carol Sample.noon) db'
          = (inl (IntegrityError "UNIQUE constraint failed: users.google_id"), db')
       /\ List.length (users db') = 1%nat.
Proof.
  split; [discriminate|]. eexists. eexists.
  split; [reflexivity|]. split; reflexivity.
Qed.

(** C10, amended. The email check is exact string equality: two requests
    whose emails differ as strings and whose google_ids do not collide, sent
    to a database that stores neither email and neither google_id, both
    succeed, and the two rows are appended. *)
Theorem create_users_distinct_emails db user1 user2 now1 now2 :
  UserCreate.email user1 <> UserCreate.email user2 ->
  same_google_id (UserCreate.google_id user1) (UserCreate.google_id user2) = false ->
  (forall u, In u (users db) ->
     User.email u <> UserCreate.email user1
     /\ User.email u <> UserCreate.email user2
     /\ same_google_id (User.google_id u) (UserCreate.google_id user1) = false
     /\ same_google_id (User.google_id u) (UserCreate.google_id user2) = false) ->
  exists row1 db1 row2 db2,
    run (create_user user1 now1) db = (inr row1, db1)
    /\ run (create_user user2 now2) db1 = (inr row2, db2)
    /\ User.email row1 = UserCreate.email user1
    /\ User.email row2 = UserCreate.email user2
    /\ users db2 = (users db ++ [row1; row2])%list
    /\ List.length (users db2) = (List.length (users db) + 2)%nat.
Proof.
  intros Hemail Hgoogle Hfresh.
  eexists. eexists. eexists. eexists.
  split; [apply create_user_fresh; intros u Hu; apply Hfresh in Hu; tauto|].
  split.
  { apply create_user_fresh. simpl. intros u Hu.
    apply in_app_or in Hu as [Hu|[<-|[]]].
    - apply Hfresh in Hu. tauto.
    - simpl. auto. }
  simpl. rewrite <- app_assoc. simpl.
  repeat split. rewrite length_app. reflexivity.
Qed.

Lemma create_users_distinct_emails_witness :
  UserCreate.email Sample.ann <> UserCreate.email Sample.ann_capital
  /\ exists row1 db1 row2 db2,
       run (create_user Sample.ann Sample.noon) empty_store = (inr row1, db1)
       /\ run (create_user Sample.ann_capital Sample.noon) db1 = (inr row2, db2)
       /\ List.length (users db2) = 2%nat.
Proof.
  assert (UserCreate.email Sample.ann <> UserCreate.email Sample.ann_capital)
    as Hemail by discriminate.
  split; [exact Hemail|].
  destruct (create_users_distinct_emails empty_store Sample.ann Sample.ann_capital
              Sample.noon Sample.noon Hemail eq_refl)
    as (row1 & db1 & row2 & db2 & H1 & H2 & _ & _ & _ & Hlen).
  { simpl. tauto. }
  exists row1, db1, row2, db2. auto.
Defined.

(** ** Listing *)

Section Pages.
Context {R : Type}.
Implicit Types (matching table : list R).

Lemma page_is_page N M matching :
  0 <= M -> is_page N M matching (page (Some N) (Some M) matching).
Proof.
  intros HM. unfold is_page, page, or_default. split; [|split].
  - unfold Query.take_rows, Query.skip_rows.
    destruct (Z.ltb_spec M 0); [lia|reflexivity].
  - apply limit_length. exact HM.
  - intros HN. rewrite offset_beyond by exact HN. apply limit_nil.
Qed.

Lemma page_covers skip limit matching :
  or_default 0 skip <= 0 ->
  or_default 100 limit < 0
  \/ Z.of_nat (List.length matching) <= or_default 100 limit ->
  page skip limit matching = matching.
Proof.
  intros Hskip Hlimit. unfold page, Query.skip_rows, Query.take_rows.
  replace (Z.to_nat (or_default 0 skip)) with 0%nat by lia. simpl.
  destruct (Z.ltb_spec (or_default 100 limit) 0); [reflexivity|].
  apply firstn_all2. lia.
Qed.

Lemma In_page skip limit matching r : In r (page skip limit matching) -> In r matching.
Proof. intros H. apply In_limit, In_offset in H. exact H. Qed.

Lemma page_lists_children (fk : R -> Z) parent_id skip limit table :
  lists_children fk parent_id skip limit table
    (page skip limit (List.filter (fun r => fk r =? parent_id) table)).
Proof.
  split; [reflexivity|]. split.
  - intros r Hr. apply In_page, filter_In in Hr as [Hr Hfk].
    apply Z.eqb_eq in Hfk. auto.
  - intros Hskip Hlimit r Hr Hfk. rewrite page_covers; auto.
    apply filter_In. split; [exact Hr|]. apply Z.eqb_eq. exact Hfk.
Qed.

Lemma matching_nonzero (fk : R -> Z) parent_id table :
  parent_id <> 0 ->
  matching fk (Some parent_id) table = List.filter (fun r => fk r =? parent_id) table.
Proof.
  intros H. unfold matching, truthy.
  destruct (Z.eqb_spec parent_id 0); [contradiction|reflexivity].
Qed.

Lemma matching_incl (fk : R -> Z) parent table r :
  In r (matching fk parent table) -> In r table.
Proof.
  unfold matching. destruct parent as [v|]; [|auto].
  destruct (truthy (Some v)); [|auto]. intros H. apply filter_In in H. tauto.
Qed.

(** The filter of a listing selects the matching rows, or cannot bind. *)
Lemma filter_if_truthy_rows (fk : R -> Z) parent table :
  filter_if_truthy fk parent (inr table) = inr (matching fk parent table)
  \/ (filter_if_truthy fk parent (inr table) = inl OverflowError
      /\ optional_int64 parent = false).
Proof.
  unfold filter_if_truthy, matching. destruct parent as [v|]; [|auto].
  destruct (truthy (Some v)); [|auto]. simpl.
  destruct (int64 v) eqn:Hv; simpl; [auto|].
  destruct (existsb _ table); auto.
Qed.

Lemma filter_if_truthy_fits (fk : R -> Z) parent table :
  optional_int64 parent = true ->
  filter_if_truthy fk parent (inr table) = inr (matching fk parent table).
Proof.
  intros H. destruct (filter_if_truthy_rows fk parent table) as [E|[_ E]]; [exact E|].
  congruence.
Qed.

(** Running the paged query of a listing. *)
Lemma paged_rows skip limit matching :
  Query.all (Query.limit (or_default 100 limit)
               (Query.offset (or_default 0 skip) (inr matching)))
  = if pageable skip limit then inr (page skip limit matching)
    else inl OverflowError.
Proof.
  unfold pageable, page, Query.all, Query.limit, Query.offset.
  destruct (int64 (or_default 0 skip)); simpl; [|reflexivity].
  destruct (int64 (or_default 100 limit)); reflexivity.
Qed.

Lemma paged_error skip limit (e : Exception) :
  Query.all (Query.limit limit (Query.offset skip (@inl _ (list R) e))) = inl e.
Proof. reflexivity. Qed.
End Pages.

(** What a listing returns, in terms of the rows it selects. *)
Lemma listing_run {R} (table : Store -> list R) (fk : R -> Z) parent skip limit db :
  run (query <- Session.query table ;;
       rows <- Session.execute
                 (Query.all
                    (Query.limit (or_default 100 limit)
                       (Query.offset (or_default 0 skip)
                          (filter_if_truthy fk parent query)))) ;;
       ret rows) db
  = (match filter_if_truthy fk parent (inr (table db)) with
     | inr matching => if pageable skip limit
                       then inr (page skip limit matching)
                       else inl OverflowError
     | inl e => inl e
     end, db).
Proof.
  unfold run, bind, Session.query, Session.execute, ret.
  destruct (filter_if_truthy fk parent (inr (table db))) as [e|rows].
  - reflexivity.
  - rewrite paged_rows. destruct (pageable skip limit); reflexivity.
Qed.

Lemma get_users_run skip limit db :
  run (get_users skip limit) db
  = (if pageable skip limit then inr (page skip limit (users db))
     else inl OverflowError, db).
Proof.
  unfold run, get_users, bind, Session.query, Session.execute, ret.
  rewrite paged_rows. destruct (pageable skip limit); reflexivity.
Qed.

(** C6. The filter value 0 lists what no filter lists, whatever the offset
    and the limit: the page of all stored workouts, exercises or meals,
    whoever the parent (and the driver's OverflowError, with or without the
    0, when the offset or the limit is an integer it cannot bind). *)
Theorem zero_filter_is_no_filter db skip limit :
  (run (get_workouts (Some 0) skip limit) db = run (get_workouts None skip limit) db
   /\ run (get_workouts None skip limit) db
      = (if pageable skip limit then inr (page skip limit (workouts db))
         else inl OverflowError, db))
  /\ (run (get_exercises (Some 0) skip limit) db
      = run (get_exercises None skip limit) db
      /\ run (get_exercises None skip limit) db
         = (if pageable skip limit then inr (page skip limit (exercises db))
            else inl OverflowError, db))
  /\ (run (get_meals (Some 0) skip limit) db = run (get_meals None skip limit) db
      /\ run (get_meals None skip limit) db
         = (if pageable skip limit then inr (page skip limit (meals db))
            else inl OverflowError, db)).
Proof.
  repeat split;
    unfold get_workouts, get_exercises, get_meals; cbv zeta;
    rewrite listing_run; reflexivity.
Qed.

Lemma zero_filter_is_no_filter_witness :
  run (get_workouts (Some 0) None None) Sample.db
  = run (get_workouts None None None) Sample.db
  /\ run (get_workouts None None None) Sample.db
     = (inr (workouts Sample.db), Sample.db).
Proof.
  destruct (zero_filter_is_no_filter Sample.db None None) as ((Hsame & Hall) & _).
  split; [exact Hsame|exact Hall].
Defined.

(** C7 as stated fails at the filter value 0: both stored workouts are
    listed, and Ann's has [user_id] 1. *)
Lemma filter_by_zero_counterexample :
  exists rows,
    run (get_workouts (Some 0) None None) Sample.db = (inr rows, Sample.db)
    /\ In Sample.ann_run rows
    /\ Workout.user_id Sample.ann_run <> 0
    /\ ~ lists_children Workout.user_id 0 None None (workouts Sample.db) rows.
Proof.
  eexists. split; [reflexivity|]. split; [simpl; auto|]. split; [discriminate|].
  intros (_ & H & _). destruct (H Sample.ann_run) as [_ Hfk]; [simpl; auto|].
  discriminate.
Qed.

(** C7, amended. With a nonzero parent id as filter, and parent id, offset
    and limit within the signed 64-bit range, a listing is the requested page
    of exactly the stored rows whose foreign key is that id: every listed row
    is stored and has that foreign key, and every such row is listed when the
    page starts at the first row and the limit does not cut it. With no
    filter, the listing is the page of all stored rows. *)
Theorem filtered_listing db parent_id skip limit :
  parent_id <> 0 ->
  int64 parent_id = true ->
  pageable skip limit = true ->
  (exists rows,
      run (get_workouts (Some parent_id) skip limit) db = (inr rows, db)
      /\ lists_children Workout.user_id parent_id skip limit (workouts db) rows)
  /\ (exists rows,
         run (get_exercises (Some parent_id) skip limit) db = (inr rows, db)
         /\ lists_children Exercise.workout_id parent_id skip limit (exercises db) rows)
  /\ (exists rows,
         run (get_meals (Some parent_id) skip limit) db = (inr rows, db)
         /\ lists_children Meal.user_id parent_id skip limit (meals db) rows)
  /\ run (get_workouts None skip limit) db = (inr (page skip limit (workouts db)), db)
  /\ run (get_exercises None skip limit) db
     = (inr (page skip limit (exercises db)), db)
  /\ run (get_meals None skip limit) db = (inr (page skip limit (meals db)), db).
Proof.
  intros Hid Hfits Hpage.
  split; [|split; [|split; [|split; [|split]]]];
    try (eexists; split; [|apply page_lists_children]);
    unfold get_workouts, get_exercises, get_meals; cbv zeta;
    rewrite listing_run;
    try (rewrite filter_if_truthy_fits by exact Hfits;
         rewrite matching_nonzero by exact Hid);
    simpl; rewrite Hpage; reflexivity.
Qed.

Lemma filtered_listing_witness :
  run (get_workouts (Some 2) None None) Sample.db = (inr [Sample.bob_run], Sample.db)
  /\ lists_children Workout.user_id 2 None None (workouts Sample.db) [Sample.bob_run].
Proof.
  assert (2 <> 0) as Hid by lia.
  destruct (filtered_listing Sample.db 2 None None Hid eq_refl eq_refl)
    as ((rows & Hrun & Hrows) & _).
  assert (rows = [Sample.bob_run]) as -> by (injection Hrun as <-; reflexivity).
  split; [exact Hrun|exact Hrows].
Defined.

(** C8 as stated fails at a negative limit: with limit -1 both stored users
    are listed, more than -1 rows. *)
Lemma negative_limit_counterexample :
  exists rows,
    run (get_users (Some 0) (Some (-1))) Sample.db = (inr rows, Sample.db)
    /\ List.length rows = 2%nat
    /\ ~ Z.of_nat (List.length rows) <= -1.
Proof.
  eexists. split; [reflexivity|]. split; [reflexivity|]. simpl. lia.
Qed.

(** C8, amended. For every offset N and every limit M that is not negative,
    both within the signed 64-bit range, and a filter value within that range,
    a listing is the first M of the matching rows that follow the first N
    (none is skipped when N is negative): at most M rows, and the empty list,
    not an error, when N is at or beyond the number of matching rows. An
    unspecified offset is 0 and an unspecified limit is 100. *)
Theorem listing_pagination db parent N M :
  0 <= M ->
  int64 N = true -> int64 M = true -> optional_int64 parent = true ->
  (exists rows,
      run (get_users (Some N) (Some M)) db = (inr rows, db)
      /\ is_page N M (users db) rows)
  /\ (exists rows,
         run (get_workouts parent (Some N) (Some M)) db = (inr rows, db)
         /\ is_page N M (matching Workout.user_id parent (workouts db)) rows)
  /\ (exists rows,
         run (get_exercises parent (Some N) (Some M)) db = (inr rows, db)
         /\ is_page N M (matching Exercise.workout_id parent (exercises db)) rows)
  /\ (exists rows,
         run (get_meals parent (Some N) (Some M)) db = (inr rows, db)
         /\ is_page N M (matching Meal.user_id parent (meals db)) rows)
  /\ (forall skip limit,
         run (get_users skip limit) db
         = run (get_users (Some (or_default 0 skip)) (Some (or_default 100 limit))) db
         /\ run (get_workouts parent skip limit) db
            = run (get_workouts parent (Some (or_default 0 skip))
                     (Some (or_default 100 limit))) db
         /\ run (get_exercises parent skip limit) db
            = run (get_exercises parent (Some (or_default 0 skip))
                     (Some (or_default 100 limit))) db
         /\ run (get_meals parent skip limit) db
            = run (get_meals parent (Some (or_default 0 skip))
                     (Some (or_default 100 limit))) db).
Proof.
  intros HM HN HM' Hparent.
  assert (pageable (Some N) (Some M) = true) as Hpage.
  { unfold pageable. simpl. rewrite HN, HM'. reflexivity. }
  split; [|split; [|split; [|split]]].
  - eexists. split; [|apply (page_is_page N M); exact HM].
    rewrite get_users_run, Hpage. reflexivity.
  - eexists. split; [|apply (page_is_page N M); exact HM].
    unfold get_workouts. cbv zeta. rewrite listing_run.
    rewrite filter_if_truthy_fits by exact Hparent. rewrite Hpage. reflexivity.
  - eexists. split; [|apply (page_is_page N M); exact HM].
    unfold get_exercises. cbv zeta. rewrite listing_run.
    rewrite filter_if_truthy_fits by exact Hparent. rewrite Hpage. reflexivity.
  - eexists. split; [|apply (page_is_page N M); exact HM].
    unfold get_meals. cbv zeta. rewrite listing_run.
    rewrite filter_if_truthy_fits by exact Hparent. rewrite Hpage. reflexivity.
  - intros skip limit. repeat split.
Qed.

Lemma listing_pagination_witness :
  run (get_users (Some 1) (Some 1)) Sample.db
  = (inr [new_User Sample.bob 2 Sample.noon], Sample.db)
  /\ run (get_users (Some 2) (Some 1)) Sample.db = (inr [], Sample.db)
  /\ run (get_users None None) Sample.db = run (get_users (Some 0) (Some 100)) Sample.db.
Proof.
  assert (0 <= 1) as HM by lia.
  destruct (listing_pagination Sample.db None 1 1 HM eq_refl eq_refl eq_refl)
    as ((rows & Hrun & _) & _).
  destruct (listing_pagination Sample.db None 2 1 HM eq_refl eq_refl eq_refl)
    as ((rows' & Hrun' & _ & _ & Hempty) & _ & _ & _ & Hdefault).
  rewrite Hempty in Hrun' by (simpl; lia).
  assert (rows = [new_User Sample.bob 2 Sample.noon]) as ->
    by (injection Hrun as <-; reflexivity).
  split; [exact Hrun|]. split; [exact Hrun'|]. apply (Hdefault None None).
Defined.
(** ** Beyond the claims: lookups by id *)

Lemma first_by_stored_id {R} (id : R -> Z) rows x :
  In x (map id rows) ->
  exists r, first_where (fun r => id r =? x) rows = Some r
            /\ In r rows /\ id r = x.
Proof.
  intros Hx. apply in_map_iff in Hx as (r0 & Hid & Hr0).
  destruct (first_filter_exists (fun r => id r =? x) rows r0 Hr0) as [r Hr].
  { apply Z.eqb_eq. exact Hid. }
  exists r. split; [exact Hr|].
  apply first_filter_Some in Hr as [Hin Heq]. apply Z.eqb_eq in Heq. auto.
Qed.

(** X1. Whatever sequence of write requests is served, the schema's promises
    survive: primary keys stay positive and strictly increasing in scan order,
    emails and present google_ids stay unique, the NOT NULL columns of
    workouts stay filled, and no foreign key dangles. *)
Theorem requests_keep_consistency requests db :
  consistent db -> consistent (fold_left (fun db r => serve r db) requests db).
Proof.
  revert db. induction requests as [|r l IH]; simpl; intros db Hdb; auto.
  apply IH. apply serve_consistent. exact Hdb.
Qed.

Lemma requests_keep_consistency_witness :
  consistent empty_store
  /\ consistent (fold_left (fun db r => serve r db) Sample.requests empty_store).
Proof.
  split; [exact empty_store_consistent|].
  apply (requests_keep_consistency Sample.requests empty_store).
  exact empty_store_consistent.
Defined.

(** X2. An id within the signed 64-bit range that no row of the table
    carries is answered with the 404 of the table, by every handler that looks
    a row up by id (the three gets, the PATCH and the four deletes), and the
    database is left as it was. *)
Theorem unknown_id_not_found db id :
  int64 id = true ->
  (~ In id (map User.id (users db)) ->
   run (get_user id) db = (inl (HTTPException HTTP_404_NOT_FOUND "User not found"), db)
   /\ run (delete_user id) db
      = (inl (HTTPException HTTP_404_NOT_FOUND "User not found"), db))
  /\ (~ In id (map Workout.id (workouts db)) ->
      run (get_workout id) db
      = (inl (HTTPException HTTP_404_NOT_FOUND "Workout not found"), db)
      /\ (forall u, run (update_workout id u) db
                    = (inl (HTTPException HTTP_404_NOT_FOUND "Workout not found"), db))
      /\ run (delete_workout id) db
         = (inl (HTTPException HTTP_404_NOT_FOUND "Workout not found"), db))
  /\ (~ In id (map Exercise.id (exercises db)) ->
      run (delete_exercise id) db
      = (inl (HTTPException HTTP_404_NOT_FOUND "Exercise not found"), db))
  /\ (~ In id (map Meal.id (meals db)) ->
      run (get_meal id) db
      = (inl (HTTPException HTTP_404_NOT_FOUND "Meal not found"), db)
      /\ run (delete_meal id) db
         = (inl (HTTPException HTTP_404_NOT_FOUND "Meal not found"), db)).
Proof.
  intros Hfits.
  split; [|split; [|split]]; intros Hmissing; repeat split; try intros u;
    unfold run, get_user, delete_user, get_workout, update_workout, delete_workout,
      delete_exercise, get_meal, delete_meal;
    rewrite lookup_int, fitting_binds by exact Hfits;
    rewrite (first_by_missing_id _ _ _ Hmissing); reflexivity.
Qed.

Lemma unknown_id_not_found_witness :
  run (get_user 9) Sample.db = (inl (HTTPException 404 "User not found"), Sample.db)
  /\ run (delete_workout 9) Sample.db
     = (inl (HTTPException 404 "Workout not found"), Sample.db)
  /\ run (delete_exercise 9) Sample.db
     = (inl (HTTPException 404 "Exercise not found"), Sample.db)
  /\ run (get_meal 9) Sample.db = (inl (HTTPException 404 "Meal not found"), Sample.db).
Proof.
  destruct (unknown_id_not_found Sample.db 9 eq_refl) as (Hu & Hw & He & Hm).
  split; [|split; [|split]].
  - apply Hu. simpl. lia.
  - apply Hw. simpl. lia.
  - apply He. simpl. lia.
  - apply Hm. simpl. lia.
Defined.

(** X3. An id that a row of the table carries is answered by [get_user],
    [get_workout] and [get_meal] with a stored row of that id, and in a
    consistent database a stored row is the answer for its own id; the
    database is left as it was. *)
Theorem stored_id_found db :
  (forall id, In id (map User.id (users db)) ->
     exists user, run (get_user id) db = (inr user, db)
                  /\ In user (users db) /\ User.id user = id)
  /\ (forall id, In id (map Workout.id (workouts db)) ->
        exists workout, run (get_workout id) db = (inr workout, db)
                        /\ In workout (workouts db) /\ Workout.id workout = id)
  /\ (forall id, In id (map Meal.id (meals db)) ->
        exists meal, run (get_meal id) db = (inr meal, db)
                     /\ In meal (meals db) /\ Meal.id meal = id)
  /\ (consistent db ->
      (forall user, In user (users db) ->
         run (get_user (User.id user)) db = (inr user, db))
      /\ (forall workout, In workout (workouts db) ->
            run (get_workout (Workout.id workout)) db = (inr workout, db))
      /\ (forall meal, In meal (meals db) ->
            run (get_meal (Meal.id meal)) db = (inr meal, db))).
Proof.
  split; [|split; [|split]].
  - intros id Hid. destruct (first_by_stored_id _ _ _ Hid) as (r & Hr & Hin & Heq).
    exists r. unfold run, get_user.
    rewrite lookup_int, stored_value_binds by exact Hid. rewrite Hr. auto.
  - intros id Hid. destruct (first_by_stored_id _ _ _ Hid) as (r & Hr & Hin & Heq).
    exists r. unfold run, get_workout.
    rewrite lookup_int, stored_value_binds by exact Hid. rewrite Hr. auto.
  - intros id Hid. destruct (first_by_stored_id _ _ _ Hid) as (r & Hr & Hin & Heq).
    exists r. unfold run, get_meal.
    rewrite lookup_int, stored_value_binds by exact Hid. rewrite Hr. auto.
  - intros Hdb. split; [|split]; intros r Hr;
      unfold run, get_user, get_workout, get_meal;
      rewrite lookup_int, stored_binds by exact Hr.
    + rewrite (first_by_id User.id _ _ (users_pk _ Hdb) Hr). reflexivity.
    + rewrite (first_by_id Workout.id _ _ (workouts_pk _ Hdb) Hr). reflexivity.
    + rewrite (first_by_id Meal.id _ _ (meals_pk _ Hdb) Hr). reflexivity.
Qed.

Lemma stored_id_found_witness :
  run (get_user 1) Sample.db = (inr Sample.ann_row, Sample.db)
  /\ run (get_workout 2) Sample.db = (inr Sample.bob_run, Sample.db)
  /\ run (get_meal 1) Sample.db = (inr (new_Meal (Sample.lunch 1) 1), Sample.db).
Proof.
  destruct (stored_id_found Sample.db) as (_ & _ & _ & H).
  destruct (H sample_consistent) as (Hu & Hw & Hm).
  split; [|split].
  - apply (Hu Sample.ann_row). simpl. auto.
  - apply (Hw Sample.bob_run). simpl. auto.
  - apply (Hm (new_Meal (Sample.lunch 1) 1)). simpl. auto.
Defined.

(** ** Beyond the claims: creating and reading back *)

Lemma next_rowid_pos ids : 0 < next_rowid ids.
Proof. unfold next_rowid. induction ids; simpl; lia. Qed.

Lemma primary_key_below_next {R} (id : R -> Z) rows r :
  primary_key (map id rows) -> In r rows -> 0 < id r < next_rowid (map id rows).
Proof.
  intros Hpk Hr. apply primary_key_bounds in Hpk. rewrite Forall_forall in Hpk.
  apply Hpk. apply in_map. exact Hr.
Qed.





(** X6. Creating a meal for a stored user, with a [user_id] and [calories]
    within the signed 64-bit range and no NaN among [protein], [carbs] and
    [fat], succeeds: the row holds the request's fields, the three floats as
    the database stores them, under a positive id larger than every stored
    meal id; [get_meal] on that id returns the row, the row is appended to
    the table, and the other tables are untouched. *)
Theorem create_meal_then_get db meal :
  consistent db ->
  In (MealCreate.user_id meal) (map User.id (users db)) ->
  int64 (MealCreate.user_id meal) = true ->
  int64 (MealCreate.calories meal) = true ->
  sqlite_real (MealCreate.protein meal) <> None ->
  sqlite_real (MealCreate.carbs meal) <> None ->
  sqlite_real (MealCreate.fat meal) <> None ->
  exists row db',
    run (create_meal meal) db = (inr row, db')
    /\ run (get_meal (Meal.id row)) db' = (inr row, db')
    /\ Meal.user_id row = MealCreate.user_id meal
    /\ Meal.name row = MealCreate.name meal
    /\ Meal.calories row = MealCreate.calories meal
    /\ sqlite_real (MealCreate.protein meal) = Some (Meal.protein row)
    /\ sqlite_real (MealCreate.carbs meal) = Some (Meal.carbs row)
    /\ sqlite_real (MealCreate.fat meal) = Some (Meal.fat row)
    /\ Meal.date row = MealCreate.date meal
    /\ 0 < Meal.id row
    /\ (forall m, In m (meals db) -> Meal.id m < Meal.id row)
    /\ meals db' = (meals db ++ [row])%list
    /\ users db' = users db
    /\ workouts db' = workouts db
    /\ exercises db' = exercises db.
Proof.
  intros Hdb Huser Huid Hcalories Hprotein Hcarbs Hfat.
  destruct (first_by_stored_id _ _ _ Huser) as (u & Hu & _).
  destruct (sqlite_real (MealCreate.protein meal)) as [protein|] eqn:Ep;
    [|contradiction].
  destruct (sqlite_real (MealCreate.carbs meal)) as [carbs|] eqn:Ec; [|contradiction].
  destruct (sqlite_real (MealCreate.fat meal)) as [fat|] eqn:Ef; [|contradiction].
  set (row := {| Meal.id := next_rowid (map Meal.id (meals db));
                 Meal.user_id := MealCreate.user_id meal;
                 Meal.name := MealCreate.name meal;
                 Meal.calories := MealCreate.calories meal;
                 Meal.protein := protein;
                 Meal.carbs := carbs;
                 Meal.fat := fat;
                 Meal.date := MealCreate.date meal |}).
  assert (run (create_meal meal) db
          = (inr row,
             {| users := users db;
                workouts := workouts db;
                exercises := exercises db;
                meals := meals db ++ [row] |})) as Hrun.
  { unfold run, create_meal.
    rewrite lookup_int, stored_value_binds by exact Huser. rewrite Hu.
    unfold bind, Session.add_Meal, ret. simpl. rewrite Huid, Hcalories, Ep, Ec, Ef.
    reflexivity. }
  pose proof (serve_consistent (POST_meals meal) db Hdb) as Hdb'.
  simpl in Hdb'. rewrite Hrun in Hdb'. simpl in Hdb'.
  assert (In row (meals db ++ [row])) as Hin by (apply in_or_app; simpl; auto).
  exists row. eexists. split; [exact Hrun|]. split.
  { unfold run, get_meal. rewrite lookup_int, stored_binds by exact Hin.
    rewrite (first_by_id Meal.id _ _ (meals_pk _ Hdb') Hin). reflexivity. }
  repeat (split; [reflexivity|]). split; [apply next_rowid_pos|]. split.
  { intros m Hm. simpl.
    apply (primary_key_below_next Meal.id _ _ (meals_pk _ Hdb) Hm). }
  simpl. auto.
Qed.

Lemma create_meal_then_get_witness :
  exists row db',
    run (create_meal (Sample.lunch 1)) Sample.db = (inr row, db')
    /\ run (get_meal 3) db' = (inr row, db')
    /\ Meal.user_id row = 1.
Proof.
  destruct (create_meal_then_get Sample.db (Sample.lunch 1) sample_consistent)
    as (row & db' & Hrun & Hget & Huid & _);
    try reflexivity; try discriminate.
  { simpl. auto. }
  assert (Meal.id row = 3) as Hid by (injection Hrun as <- _; reflexivity).
  rewrite Hid in Hget. exists row, db'. auto.
Defined.

(** X7. Creating an exercise for a stored workout, with [workout_id], [sets]
    and [reps] within the signed 64-bit range and a [weight] that is not NaN,
    succeeds under a fresh positive id, the row holding the request's fields
    and the weight as the database stores it; the listing of that workout's
    exercises afterwards, for an offset and a limit within that range, is the
    listing before with the new row at its end, paged as requested; the other
    tables are untouched. *)
Theorem create_exercise_then_list db exercise skip limit :
  consistent db ->
  In (ExerciseCreate.workout_id exercise) (map Workout.id (workouts db)) ->
  int64 (ExerciseCreate.workout_id exercise) = true ->
  int64 (ExerciseCreate.sets exercise) = true ->
  int64 (ExerciseCreate.reps exercise) = true ->
  sqlite_real (ExerciseCreate.weight exercise) <> None ->
  pageable skip limit = true ->
  exists row db',
    run (create_exercise exercise) db = (inr row, db')
    /\ Exercise.workout_id row = ExerciseCreate.workout_id exercise
    /\ Exercise.name row = ExerciseCreate.name exercise
    /\ Exercise.sets row = ExerciseCreate.sets exercise
    /\ Exercise.reps row = ExerciseCreate.reps exercise
    /\ sqlite_real (ExerciseCreate.weight exercise) = Some (Exercise.weight row)
    /\ 0 < Exercise.id row
    /\ (forall e, In e (exercises db) -> Exercise.id e < Exercise.id row)
    /\ run (get_exercises (Some (ExerciseCreate.workout_id exercise)) skip limit) db'
       = (inr (page skip limit
                 (List.filter
                    (fun e => Exercise.workout_id e
                              =? ExerciseCreate.workout_id exercise) (exercises db)
                  ++ [row])), db')
    /\ exercises db' = (exercises db ++ [row])%list
    /\ users db' = users db
    /\ workouts db' = workouts db
    /\ meals db' = meals db.
Proof.
  intros Hdb Hworkout Hwid Hsets Hreps Hweight Hpage.
  destruct (first_by_stored_id _ _ _ Hworkout) as (w & Hw & Hin & Hid).
  pose proof (primary_key_below_next Workout.id _ _ (workouts_pk _ Hdb) Hin) as Hpos.
  destruct (sqlite_real (ExerciseCreate.weight exercise)) as [weight|] eqn:Ew;
    [|contradiction].
  set (row := {| Exercise.id := next_rowid (map Exercise.id (exercises db));
                 Exercise.workout_id := ExerciseCreate.workout_id exercise;
                 Exercise.name := ExerciseCreate.name exercise;
                 Exercise.sets := ExerciseCreate.sets exercise;
                 Exercise.reps := ExerciseCreate.reps exercise;
                 Exercise.weight := weight |}).
  assert (run (create_exercise exercise) db
          = (inr row,
             {| users := users db;
                workouts := workouts db;
                exercises := exercises db ++ [row];
                meals := meals db |})) as Hrun.
  { unfold run, create_exercise.
    rewrite lookup_int, stored_value_binds by exact Hworkout. rewrite Hw.
    unfold bind, Session.add_Exercise, ret. simpl. rewrite Hwid, Hsets, Hreps, Ew.
    reflexivity. }
  exists row. eexists. split; [exact Hrun|].
  repeat (split; [reflexivity|]). split; [apply next_rowid_pos|]. split.
  { intros e He. simpl.
    apply (primary_key_below_next Exercise.id _ _ (exercises_pk _ Hdb) He). }
  split; [|simpl; auto].
  unfold get_exercises. cbv zeta. rewrite listing_run.
  rewrite filter_if_truthy_fits by exact Hwid. rewrite Hpage.
  rewrite matching_nonzero by lia. simpl. rewrite filter_app. simpl.
  rewrite Z.eqb_refl. reflexivity.
Qed.

Lemma create_exercise_then_list_witness :
  exists row db',
    run (create_exercise (Sample.pushup 2)) Sample.db = (inr row, db')
    /\ run (get_exercises (Some 2) None None) db'
       = (inr [new_Exercise (Sample.pushup 2) 2; row], db')
    /\ Exercise.id row = 3.
Proof.
  destruct (create_exercise_then_list Sample.db (Sample.pushup 2) None None
              sample_consistent)
    as (row & db' & Hrun & _ & _ & _ & _ & _ & _ & _ & Hlist & _);
    try reflexivity; try discriminate.
  { simpl. auto. }
  assert (Exercise.id row = 3) as Hid by (injection Hrun as <- _; reflexivity).
  exists row, db'. split; [exact Hrun|]. split; [exact Hlist|exact Hid].
Defined.

(** X16. What the database driver refuses of a create request for a stored
    parent: an integer field outside the signed 64-bit range raises
    OverflowError, and a NaN for a NOT NULL float column raises the
    IntegrityError of that column's constraint; nothing is stored. *)
Theorem create_refused_by_driver db :
  (forall workout,
      In (WorkoutCreate.user_id workout) (map User.id (users db)) ->
      int64 (WorkoutCreate.duration_min workout) = false ->
      run (create_workout workout) db = (inl OverflowError, db))
  /\ (forall exercise,
         In (ExerciseCreate.workout_id exercise) (map Workout.id (workouts db)) ->
         int64 (ExerciseCreate.sets exercise) && int64 (ExerciseCreate.reps exercise)
         = false ->
         run (create_exercise exercise) db = (inl OverflowError, db))
  /\ (forall exercise,
         In (ExerciseCreate.workout_id exercise) (map Workout.id (workouts db)) ->
         int64 (ExerciseCreate.workout_id exercise) = true ->
         int64 (ExerciseCreate.sets exercise) = true ->
         int64 (ExerciseCreate.reps exercise) = true ->
         sqlite_real (ExerciseCreate.weight exercise) = None ->
         run (create_exercise exercise) db
         = (inl (IntegrityError "NOT NULL constraint failed: exercises.weight"), db))
  /\ (forall meal,
         In (MealCreate.user_id meal) (map User.id (users db)) ->
         int64 (MealCreate.calories meal) = false ->
         run (create_meal meal) db = (inl OverflowError, db))
  /\ (forall meal,
         In (MealCreate.user_id meal) (map User.id (users db)) ->
         int64 (MealCreate.user_id meal) = true ->
         int64 (MealCreate.calories meal) = true ->
         sqlite_real (MealCreate.protein meal) = None ->
         run (create_meal meal) db
         = (inl (IntegrityError "NOT NULL constraint failed: meals.protein"), db)).
Proof.
  split; [|split; [|split; [|split]]].
  - intros workout Huser Hduration.
    destruct (first_by_stored_id _ _ _ Huser) as (u & Hu & _).
    unfold run, create_workout.
    rewrite lookup_int, stored_value_binds by exact Huser. rewrite Hu.
    unfold bind, Session.add_Workout, ret. simpl. rewrite Hduration, andb_false_r.
    reflexivity.
  - intros exercise Hworkout Hfits.
    destruct (first_by_stored_id _ _ _ Hworkout) as (w & Hw & _).
    unfold run, create_exercise.
    rewrite lookup_int, stored_value_binds by exact Hworkout. rewrite Hw.
    unfold bind, Session.add_Exercise, ret. simpl.
    rewrite <- andb_assoc, Hfits, andb_false_r. reflexivity.
  - intros exercise Hworkout Hwid Hsets Hreps Hweight.
    destruct (first_by_stored_id _ _ _ Hworkout) as (w & Hw & _).
    unfold run, create_exercise.
    rewrite lookup_int, stored_value_binds by exact Hworkout. rewrite Hw.
    unfold bind, Session.add_Exercise, ret. simpl.
    rewrite Hwid, Hsets, Hreps, Hweight. reflexivity.
  - intros meal Huser Hcalories.
    destruct (first_by_stored_id _ _ _ Huser) as (u & Hu & _).
    unfold run, create_meal.
    rewrite lookup_int, stored_value_binds by exact Huser. rewrite Hu.
    unfold bind, Session.add_Meal, ret. simpl. rewrite Hcalories, andb_false_r.
    reflexivity.
  - intros meal Huser Huid Hcalories Hprotein.
    destruct (first_by_stored_id _ _ _ Huser) as (u & Hu & _).
    unfold run, create_meal.
    rewrite lookup_int, stored_value_binds by exact Huser. rewrite Hu.
    unfold bind, Session.add_Meal, ret. simpl.
    rewrite Huid, Hcalories, Hprotein. reflexivity.
Qed.

Lemma create_refused_by_driver_witness :
  run (create_exercise
         {| ExerciseCreate.workout_id := 1; ExerciseCreate.name := "plank";
            ExerciseCreate.sets := 3; ExerciseCreate.reps := Sample.too_big;
            ExerciseCreate.weight := S754_zero false |}) Sample.db
  = (inl OverflowError, Sample.db)
  /\ run (create_exercise
            {| ExerciseCreate.workout_id := 1; ExerciseCreate.name := "plank";
               ExerciseCreate.sets := 3; ExerciseCreate.reps := 1;
               ExerciseCreate.weight := S754_nan |}) Sample.db
     = (inl (IntegrityError "NOT NULL constraint failed: exercises.weight"),
        Sample.db).
Proof.
  destruct (create_refused_by_driver Sample.db) as (_ & Hover & Hnan & _).
  split.
  - apply Hover; [simpl; auto|reflexivity].
  - apply Hnan; try reflexivity. simpl. auto.
Defined.
(** ** Beyond the claims: deleting *)

Lemma delete_rows_missing {R} (id : R -> Z) ids rows x :
  In x ids -> ~ In x (map id (delete_rows id ids rows)).
Proof.
  intros Hx Hin. apply in_map_iff in Hin as (r & Hid & Hr).
  apply In_delete_rows in Hr as [_ Hkeep]. apply Hkeep. rewrite Hid. exact Hx.
Qed.

Lemma filter_all {R} (p : R -> bool) rows :
  (forall r, In r rows -> p r = true) -> List.filter p rows = rows.
Proof.
  induction rows as [|x l IH]; simpl; intros H; [reflexivity|].
  rewrite (H x) by auto. f_equal. auto.
Qed.

(** Deleting by one stored primary key removes one row. *)
Lemma delete_one_length {R} (id : R -> Z) rows r :
  NoDup (map id rows) -> In r rows ->
  (List.length (delete_rows id [id r] rows) + 1 = List.length rows)%nat.
Proof.
  unfold delete_rows. induction rows as [|x l IH]; simpl; [tauto|].
  intros Hnd Hr. inversion Hnd as [|? ? Hx Hl]; subst.
  destruct (Z.eqb_spec (id x) (id r)) as [E|E]; simpl.
  - rewrite filter_all; [lia|]. intros y Hy.
    destruct (Z.eqb_spec (id y) (id r)) as [Ey|]; [|reflexivity].
    exfalso. apply Hx. rewrite E, <- Ey. apply in_map. exact Hy.
  - destruct Hr as [->|Hr]; [contradiction|].
    specialize (IH Hl Hr). simpl in IH. lia.
Qed.

Lemma delete_user_found db user :
  consistent db -> In user (users db) ->
  run (delete_user (User.id user)) db = run (Session.delete_User user) db.
Proof.
  intros Hdb Hin. unfold run, delete_user.
  rewrite lookup_int, stored_binds by exact Hin.
  rewrite (first_by_id User.id _ _ (users_pk _ Hdb) Hin). reflexivity.
Qed.

Lemma delete_workout_found db workout :
  consistent db -> In workout (workouts db) ->
  run (delete_workout (Workout.id workout)) db
  = run (Session.delete_Workout workout) db.
Proof.
  intros Hdb Hin. unfold run, delete_workout.
  rewrite lookup_int, stored_binds by exact Hin.
  rewrite (first_by_id Workout.id _ _ (workouts_pk _ Hdb) Hin). reflexivity.
Qed.

(** X8. Deleting a stored workout succeeds and removes that workout and
    exactly the exercises whose [workout_id] is its id; users and meals are
    untouched, [get_workout] on the id, an id within the signed 64-bit range
    as every id the database hands out is, then answers 404, and no orphan
    row is left. *)
Theorem delete_workout_cascades db workout :
  consistent db -> In workout (workouts db) ->
  exists db',
    run (delete_workout (Workout.id workout)) db = (inr tt, db')
    /\ (forall w, In w (workouts db') <-> In w (workouts db) /\ w <> workout)
    /\ (forall e, In e (exercises db') <->
                  In e (exercises db) /\ Exercise.workout_id e <> Workout.id workout)
    /\ users db' = users db
    /\ meals db' = meals db
    /\ (int64 (Workout.id workout) = true ->
        run (get_workout (Workout.id workout)) db'
        = (inl (HTTPException HTTP_404_NOT_FOUND "Workout not found"), db'))
    /\ no_orphans db'.
Proof.
  intros Hdb Hin. rewrite (delete_workout_found _ _ Hdb Hin).
  pose proof (delete_Workout_consistent workout db tt _ Hdb eq_refl) as Hdb'.
  unfold run, Session.delete_Workout in *. eexists. split; [reflexivity|]. simpl.
  split; [|split; [|split; [|split; [|split]]]]; auto.
  - intros w. rewrite In_delete_rows. simpl. split; intros [Hw Hne]; split; auto.
    + intros ->. apply Hne. auto.
    + intros [Heq|[]]. apply Hne. symmetry.
      apply (primary_key_inj Workout.id _ _ _ (workouts_pk _ Hdb) Hin Hw Heq).
  - intros e. rewrite In_delete_rows. split; intros [He Hne]; split; auto.
    + intros Heq. apply Hne. apply in_map. apply filter_In. split; [exact He|].
      apply Z.eqb_eq. exact Heq.
    + intros Hid. apply in_map_iff in Hid as (e' & Hid & He').
      apply filter_In in He' as [He' Hwid]. apply Z.eqb_eq in Hwid.
      assert (e' = e)
        by (apply (primary_key_inj Exercise.id (exercises db));
            auto using exercises_pk).
      subst. contradiction.
  - intros Hfits. unfold get_workout.
    rewrite lookup_int, fitting_binds by exact Hfits. simpl.
    rewrite first_by_missing_id; [reflexivity|].
    apply delete_rows_missing. simpl. auto.
  - apply consistent_no_orphans. exact Hdb'.
Qed.

Lemma delete_workout_cascades_witness :
  exists db',
    run (delete_workout 1) Sample.db = (inr tt, db')
    /\ workouts db' = [Sample.bob_run]
    /\ exercises db' = [new_Exercise (Sample.pushup 2) 2]
    /\ run (get_workout 1) db' = (inl (HTTPException 404 "Workout not found"), db').
Proof.
  destruct (delete_workout_cascades Sample.db Sample.ann_run sample_consistent)
    as (db' & Hrun & _ & _ & _ & _ & Hget & _).
  { simpl. auto. }
  exists db'. split; [exact Hrun|]. specialize (Hget eq_refl).
  injection Hrun as <-. split; [reflexivity|]. split; [reflexivity|exact Hget].
Defined.

(** X9. After a stored user was deleted, the user's id, the ids of the
    user's workouts and meals and the ids of those workouts' exercises are no
    longer known: for each of these ids, all within the signed 64-bit range
    as every id the database hands out is, [get_user], [get_workout],
    [get_meal], [delete_exercise] and a second [delete_user] answer 404. *)
Theorem delete_user_then_not_found db user :
  consistent db -> In user (users db) ->
  exists db',
    run (delete_user (User.id user)) db = (inr tt, db')
    /\ (int64 (User.id user) = true ->
        run (get_user (User.id user)) db'
        = (inl (HTTPException HTTP_404_NOT_FOUND "User not found"), db')
        /\ run (delete_user (User.id user)) db'
           = (inl (HTTPException HTTP_404_NOT_FOUND "User not found"), db'))
    /\ (forall w, In w (workouts db) -> Workout.user_id w = User.id user ->
          (int64 (Workout.id w) = true ->
           run (get_workout (Workout.id w)) db'
           = (inl (HTTPException HTTP_404_NOT_FOUND "Workout not found"), db'))
          /\ forall e, In e (exercises db) -> Exercise.workout_id e = Workout.id w ->
               int64 (Exercise.id e) = true ->
               run (delete_exercise (Exercise.id e)) db'
               = (inl (HTTPException HTTP_404_NOT_FOUND "Exercise not found"), db'))
    /\ (forall m, In m (meals db) -> Meal.user_id m = User.id user ->
          int64 (Meal.id m) = true ->
          run (get_meal (Meal.id m)) db'
          = (inl (HTTPException HTTP_404_NOT_FOUND "Meal not found"), db')).
Proof.
  intros Hdb Hin. rewrite (delete_user_found _ _ Hdb Hin).
  unfold run at 1, Session.delete_User. eexists. split; [reflexivity|].
  split; [|split].
  - intros Hfits. split.
    + unfold run, get_user. rewrite lookup_int, fitting_binds by exact Hfits. simpl.
      rewrite first_by_missing_id; [reflexivity|].
      apply delete_rows_missing. simpl. auto.
    + unfold run, delete_user. rewrite lookup_int, fitting_binds by exact Hfits.
      simpl. rewrite first_by_missing_id; [reflexivity|].
      apply delete_rows_missing. simpl. auto.
  - intros w Hw Huid.
    assert (In w (workouts_of user db)) as Hws.
    { apply filter_In. split; [exact Hw|]. apply Z.eqb_eq. exact Huid. }
    split.
    + intros Hfits. unfold run, get_workout.
      rewrite lookup_int, fitting_binds by exact Hfits. simpl.
      rewrite first_by_missing_id; [reflexivity|].
      apply delete_rows_missing. apply in_map. exact Hws.
    + intros e He Hwid Hfits.
      unfold run, delete_exercise.
      rewrite lookup_int, fitting_binds by exact Hfits. simpl.
      rewrite first_by_missing_id; [reflexivity|].
      apply delete_rows_missing. apply in_map. apply in_flat_map.
      exists w. split; [exact Hws|]. apply filter_In. split; [exact He|].
      apply Z.eqb_eq. exact Hwid.
  - intros m Hm Huid Hfits.
    unfold run, get_meal. rewrite lookup_int, fitting_binds by exact Hfits. simpl.
    rewrite first_by_missing_id; [reflexivity|].
    apply delete_rows_missing. apply in_map. apply filter_In.
    split; [exact Hm|]. apply Z.eqb_eq. exact Huid.
Qed.

Lemma delete_user_then_not_found_witness :
  exists db',
    run (delete_user 1) Sample.db = (inr tt, db')
    /\ run (get_user 1) db' = (inl (HTTPException 404 "User not found"), db')
    /\ run (get_workout 1) db' = (inl (HTTPException 404 "Workout not found"), db')
    /\ run (delete_exercise 1) db'
       = (inl (HTTPException 404 "Exercise not found"), db')
    /\ run (get_meal 1) db' = (inl (HTTPException 404 "Meal not found"), db').
Proof.
  destruct (delete_user_then_not_found Sample.db Sample.ann_row sample_consistent)
    as (db' & Hrun & Hget & Hw & Hm).
  { simpl. auto. }
  destruct (Hget eq_refl) as [Hgu _].
  destruct (Hw Sample.ann_run) as [Hgw He]; [simpl; auto|reflexivity|].
  exists db'. split; [exact Hrun|]. split; [exact Hgu|].
  split; [exact (Hgw eq_refl)|]. split.
  - apply (He (new_Exercise (Sample.pushup 1) 1));
      [simpl; auto|reflexivity|reflexivity].
  - apply (Hm (new_Meal (Sample.lunch 1) 1));
      [simpl; auto|reflexivity|reflexivity].
Defined.

(** X10. Deleting a stored exercise, or a stored meal, removes that one row
    and nothing else: the table is one row shorter, every other row of it
    stays, and the other three tables are untouched. *)
Theorem delete_leaf_row db :
  consistent db ->
  (forall exercise, In exercise (exercises db) ->
     exists db',
       run (delete_exercise (Exercise.id exercise)) db = (inr tt, db')
       /\ (forall e, In e (exercises db') <-> In e (exercises db) /\ e <> exercise)
       /\ (List.length (exercises db') + 1 = List.length (exercises db))%nat
       /\ users db' = users db /\ workouts db' = workouts db /\ meals db' = meals db)
  /\ (forall meal, In meal (meals db) ->
        exists db',
          run (delete_meal (Meal.id meal)) db = (inr tt, db')
          /\ (forall m, In m (meals db') <-> In m (meals db) /\ m <> meal)
          /\ (List.length (meals db') + 1 = List.length (meals db))%nat
          /\ users db' = users db /\ workouts db' = workouts db
          /\ exercises db' = exercises db).
Proof.
  intros Hdb. split; intros r Hr.
  - unfold run, delete_exercise. rewrite lookup_int, stored_binds by exact Hr.
    rewrite (first_by_id Exercise.id _ _ (exercises_pk _ Hdb) Hr).
    unfold bind, Session.delete_Exercise. eexists. split; [reflexivity|]. simpl.
    split; [|split]; auto.
    + intros e. rewrite In_delete_rows. simpl. split; intros [He Hne]; split; auto.
      * intros ->. apply Hne. auto.
      * intros [Heq|[]]. apply Hne. symmetry.
        apply (primary_key_inj Exercise.id _ _ _ (exercises_pk _ Hdb) Hr He Heq).
    + apply delete_one_length; [|exact Hr].
      apply primary_key_NoDup, exercises_pk, Hdb.
  - unfold run, delete_meal. rewrite lookup_int, stored_binds by exact Hr.
    rewrite (first_by_id Meal.id _ _ (meals_pk _ Hdb) Hr).
    unfold bind, Session.delete_Meal. eexists. split; [reflexivity|]. simpl.
    split; [|split]; auto.
    + intros m. rewrite In_delete_rows. simpl. split; intros [Hm Hne]; split; auto.
      * intros ->. apply Hne. auto.
      * intros [Heq|[]]. apply Hne. symmetry.
        apply (primary_key_inj Meal.id _ _ _ (meals_pk _ Hdb) Hr Hm Heq).
    + apply delete_one_length; [|exact Hr].
      apply primary_key_NoDup, meals_pk, Hdb.
Qed.

Lemma delete_leaf_row_witness :
  (exists db',
      run (delete_exercise 1) Sample.db = (inr tt, db')
      /\ exercises db' = [new_Exercise (Sample.pushup 2) 2])
  /\ (exists db',
         run (delete_meal 2) Sample.db = (inr tt, db')
         /\ meals db' = [new_Meal (Sample.lunch 1) 1]).
Proof.
  destruct (delete_leaf_row Sample.db sample_consistent) as [He Hm].
  split.
  - destruct (He (new_Exercise (Sample.pushup 1) 1)) as (db' & Hrun & _);
      [simpl; auto|].
    exists db'. split; [exact Hrun|]. injection Hrun as <-. reflexivity.
  - destruct (Hm (new_Meal (Sample.lunch 2) 2)) as (db' & Hrun & _);
      [simpl; auto|].
    exists db'. split; [exact Hrun|]. injection Hrun as <-. reflexivity.
Defined.
(** ** Beyond the claims: more on the partial update *)

Lemma patched_twice {T} (f : field T) prior : patched f (patched f prior) = patched f prior.
Proof. destruct f; reflexivity. Qed.

Lemma flushed_same workout : flushed workout workout = workout.
Proof.
  destruct workout. unfold flushed. simpl. rewrite !same_float_refl. reflexivity.
Qed.

(** What the UPDATE stored of a float is what it stores of it again. *)
Lemma flushed_float_twice loaded v :
  let stored := if same float_eqb loaded v then v else nullable_real v in
  (if same float_eqb stored v then v else nullable_real v) = stored.
Proof.
  simpl. destruct (same float_eqb loaded v) eqn:E.
  - rewrite same_float_refl. reflexivity.
  - destruct (same float_eqb (nullable_real v) v) eqn:E'; [|reflexivity].
    apply same_float_eq in E'. congruence.
Qed.

Lemma flushed_twice u workout :
  let new := flushed workout (assigned u workout) in
  flushed new (assigned u new) = new
  /\ duration_overflows new (assigned u new) = false
  /\ workout_not_null (assigned u new) = workout_not_null (assigned u workout).
Proof.
  cbv zeta. rewrite (assigned_fields u (flushed _ _)), (assigned_fields u workout).
  unfold flushed, duration_overflows, workout_not_null. simpl.
  rewrite !patched_twice, same_Z_refl. split; [|split].
  - f_equal.
    + destruct (WorkoutUpdate.distance_km u) as [|v]; simpl.
      * rewrite !same_float_refl. reflexivity.
      * apply flushed_float_twice.
    + destruct (WorkoutUpdate.avg_pace u) as [|v]; simpl.
      * rewrite !same_float_refl. reflexivity.
      * apply flushed_float_twice.
    + destruct (WorkoutUpdate.date u); reflexivity.
  - reflexivity.
  - destruct (WorkoutUpdate.date u); reflexivity.
Qed.

Lemma replace_twice db key new :
  Workout.id new = key ->
  replace_workout (replace_workout db key new) key new = replace_workout db key new.
Proof.
  intros Hid. unfold replace_workout. simpl. f_equal.
  rewrite map_map. apply map_ext. intros w.
  destruct (Z.eqb_spec (Workout.id w) key) as [E|E].
  - rewrite Hid, Z.eqb_refl. reflexivity.
  - destruct (Z.eqb_spec (Workout.id w) key); [contradiction|reflexivity].
Qed.

Lemma existsb_other_after_replace rows other key new :
  Workout.id new = key -> key <> other ->
  existsb (fun w => Workout.id w =? other)
    (map (fun w => if Workout.id w =? key then new else w) rows)
  = existsb (fun w => Workout.id w =? other) rows.
Proof.
  intros <- Hne. induction rows as [|x l IH]; simpl; [reflexivity|].
  rewrite IH. f_equal.
  destruct (Z.eqb_spec (Workout.id x) (Workout.id new)) as [E|E]; [|reflexivity].
  destruct (Z.eqb_spec (Workout.id new) other); [contradiction|].
  destruct (Z.eqb_spec (Workout.id x) other); [congruence|reflexivity].
Qed.

(** X11. Sending the same PATCH a second time changes nothing: the response
    is the response of the first time and the database stays as the first
    left it. *)
Theorem update_workout_idempotent db workout_id u :
  let (response, db') := run (update_workout workout_id u) db in
  run (update_workout workout_id u) db' = (response, db').
Proof.
  destruct (update_workout_cases db workout_id u)
    as [[_ Hrun]|[[_ Hrun]|(workout & Hfound & Hid
                            & [(e & Hrun & _)|(Hfits & Hnull & Hrun)])]];
    rewrite Hrun; try exact Hrun.
  set (new := flushed workout (assigned u workout)) in *.
  assert (Workout.id new = workout_id) as Hnew
    by (unfold new, flushed; simpl; rewrite assigned_id; exact Hid).
  pose proof (first_after_replace _ _ _ new Hfound Hnew) as Hagain.
  destruct (flushed_twice u workout) as (Hsame & Hfits' & Hnull').
  fold new in Hsame, Hfits', Hnull'.
  destruct (update_workout_cases (replace_workout db workout_id new) workout_id u)
    as [[Hbinds _]|[[Hnone _]|(again & Hfound' & _ & Hcases)]]; simpl in *.
  - rewrite (found_binds _ _ _ _ Hagain) in Hbinds. discriminate.
  - rewrite Hagain in Hnone. discriminate.
  - rewrite Hagain in Hfound'. injection Hfound' as <-.
    destruct Hcases as [(e & _ & [Hover|Hnn])|(_ & _ & Hrun')]; [congruence..|].
    rewrite Hrun', Hsame, replace_twice by exact Hnew. reflexivity.
Qed.

(** X12. A PATCH touches one workout only: users, exercises and meals are as
    before, the workouts table has as many rows as before, and [get_workout]
    on any other id answers what it answered before. *)
Theorem update_workout_touches_one_row db workout_id u :
  let (response, db') := run (update_workout workout_id u) db in
  users db' = users db
  /\ exercises db' = exercises db
  /\ meals db' = meals db
  /\ List.length (workouts db') = List.length (workouts db)
  /\ forall other, other <> workout_id ->
       run (get_workout other) db' = (fst (run (get_workout other) db), db').
Proof.
  assert (forall other, run (get_workout other) db
                        = (fst (run (get_workout other) db), db)) as Hsame.
  { intros other. unfold run, get_workout. rewrite lookup_int.
    destruct (int64 other || existsb _ (workouts db)); [|reflexivity].
    unfold ret, raise. destruct (first_where _ (workouts db)); reflexivity. }
  destruct (update_workout_cases db workout_id u)
    as [[_ Hrun]|[[_ Hrun]|(workout & Hfound & Hid
                            & [(e & Hrun & _)|(Hfits & Hnull & Hrun)])]];
    rewrite Hrun; simpl; repeat split; auto.
  - apply length_map.
  - intros other Hother.
    assert (Workout.id (flushed workout (assigned u workout)) = workout_id) as Hnew
      by (unfold flushed; simpl; rewrite assigned_id; exact Hid).
    unfold run, get_workout. rewrite !lookup_int. simpl.
    rewrite (existsb_other_after_replace _ _ _ _ Hnew) by congruence.
    rewrite (first_other_after_replace _ _ _ _ Hnew) by congruence.
    destruct (int64 other || existsb _ (workouts db)); [|reflexivity].
    unfold ret, raise.
    destruct (first_where (fun w => Workout.id w =? other) (workouts db));
      reflexivity.
Qed.

(** X13. A PATCH whose body sets no field is a no-op on a stored workout: the
    handler returns the stored row and the database is unchanged. *)
Theorem update_workout_empty_body db workout u :
  consistent db -> In workout (workouts db) ->
  WorkoutUpdate.model_dump_exclude_unset u = [] ->
  run (update_workout (Workout.id workout) u) db = (inr workout, db).
Proof.
  intros Hdb Hin Hempty.
  assert (assigned u workout = workout) as Hsame
    by (unfold assigned; rewrite Hempty; reflexivity).
  assert (workout_not_null workout = true) as Hnn.
  { pose proof (workouts_not_null _ Hdb) as H. rewrite Forall_forall in H. auto. }
  pose proof (first_by_id Workout.id _ _ (workouts_pk _ Hdb) Hin) as Hfirst.
  destruct (update_workout_cases db (Workout.id workout) u)
    as [[Hbinds _]|[[Hnone _]|(found & Hfound & _ & Hcases)]].
  - rewrite (found_binds _ _ _ _ Hfirst) in Hbinds. discriminate.
  - rewrite Hfirst in Hnone. discriminate.
  - rewrite Hfirst in Hfound. injection Hfound as <-. rewrite Hsame in Hcases.
    rewrite flushed_same in Hcases.
    destruct Hcases as [(e & _ & [Hover|Hnull])|(_ & _ & Hrun)].
    + unfold duration_overflows in Hover. rewrite same_Z_refl in Hover. discriminate.
    + congruence.
    + rewrite Hrun. f_equal. unfold replace_workout.
      destruct db as [us ws es ms]. simpl in *. f_equal.
      rewrite <- (map_id ws) at 2. apply map_ext_in. intros w Hw.
      destruct (Z.eqb_spec (Workout.id w) (Workout.id workout)) as [E|]; [|reflexivity].
      symmetry. apply (primary_key_inj Workout.id ws); auto.
      apply (workouts_pk _ Hdb).
Qed.

Lemma update_workout_empty_body_witness :
  run (update_workout 1
         {| WorkoutUpdate.type := Unset; WorkoutUpdate.duration_min := Unset;
            WorkoutUpdate.distance_km := Unset; WorkoutUpdate.avg_pace := Unset;
            WorkoutUpdate.date := Unset; WorkoutUpdate.is_starred := Unset |})
    Sample.db
  = (inr Sample.ann_run, Sample.db).
Proof.
  apply (update_workout_empty_body Sample.db Sample.ann_run).
  - exact sample_consistent.
  - simpl. auto.
  - reflexivity.
Defined.
(** ** Beyond the claims: more on listings *)

Section MorePages.
Context {R : Type}.
Implicit Types (l : list R).

Lemma firstn_add (a b : nat) l :
  firstn (a + b) l = (firstn a l ++ firstn b (skipn a l))%list.
Proof.
  revert l. induction a as [|a IH]; intros [|x l]; simpl; auto.
  - destruct b; reflexivity.
  - f_equal. apply IH.
Qed.

Lemma page_append N M M' l :
  0 <= N -> 0 <= M -> 0 <= M' ->
  page (Some N) (Some (M + M')) l
  = (page (Some N) (Some M) l ++ page (Some (N + M)) (Some M') l)%list.
Proof.
  intros HN HM HM'. unfold page, or_default, Query.take_rows, Query.skip_rows.
  destruct (Z.ltb_spec (M + M') 0); [lia|].
  destruct (Z.ltb_spec M 0); [lia|]. destruct (Z.ltb_spec M' 0); [lia|].
  rewrite !Z2Nat.inj_add by lia. rewrite firstn_add.
  rewrite skipn_skipn. rewrite (Nat.add_comm (Z.to_nat M)). reflexivity.
Qed.

Lemma sorted_firstn (n : nat) (ids : list Z) :
  StronglySorted Z.lt ids -> StronglySorted Z.lt (firstn n ids).
Proof.
  intros H. revert n. induction H as [|i ids Hs IH Hi]; intros [|n]; simpl;
    try constructor; auto.
  rewrite Forall_forall in *. intros x Hx. apply Hi.
  rewrite <- (firstn_skipn n ids). apply in_or_app. auto.
Qed.

Lemma sorted_skipn (n : nat) (ids : list Z) :
  StronglySorted Z.lt ids -> StronglySorted Z.lt (skipn n ids).
Proof.
  intros H. revert n. induction H as [|i ids Hs IH Hi]; intros [|n]; simpl;
    try constructor; auto.
Qed.

Lemma page_sorted (id fk : R -> Z) parent skip limit l :
  primary_key (map id l) ->
  StronglySorted Z.lt (map id (page skip limit (matching fk parent l))).
Proof.
  intros Hpk.
  assert (StronglySorted Z.lt (map id (matching fk parent l))) as Hs.
  { assert (primary_key (map id (matching fk parent l))) as H.
    { unfold matching. destruct parent as [v|]; [|exact Hpk].
      destruct (truthy (Some v)); [|exact Hpk]. apply primary_key_filter. exact Hpk. }
    apply StronglySorted_inv in H. tauto. }
  unfold page, Query.take_rows, Query.skip_rows.
  destruct (or_default 100 limit <? 0).
  - rewrite <- skipn_map. apply sorted_skipn. exact Hs.
  - rewrite <- firstn_map, <- skipn_map. apply sorted_firstn, sorted_skipn. exact Hs.
Qed.

(** Two consecutive pages of the same rows, and the page that spans both. *)
Lemma pages_fit N M M' l :
  0 <= N -> 0 <= M -> 0 <= M' ->
  exists p1 p2,
    page (Some N) (Some M) l = p1
    /\ page (Some (N + M)) (Some M') l = p2
    /\ page (Some N) (Some (M + M')) l = (p1 ++ p2)%list
    /\ is_page N M l p1
    /\ is_page (N + M) M' l p2.
Proof.
  intros HN HM HM'. eexists. eexists. split; [reflexivity|]. split; [reflexivity|].
  split; [apply page_append; assumption|].
  split; apply page_is_page; assumption.
Qed.

(** A listing that returns rows returns them sorted and from the table. *)
Lemma listing_sorted (id fk : R -> Z) parent skip limit l (e : Exception) rows :
  primary_key (map id l) ->
  (match filter_if_truthy fk parent (inr l) with
   | inr selected => if pageable skip limit
                     then inr (page skip limit selected)
                     else inl OverflowError
   | inl e => inl e
   end) = inr rows ->
  StronglySorted Z.lt (map id rows) /\ forall r, In r rows -> In r l.
Proof.
  intros Hpk. destruct (filter_if_truthy_rows fk parent l) as [->|[-> _]];
    [|discriminate].
  destruct (pageable skip limit); [|discriminate].
  intros H. injection H as <-. split.
  - apply page_sorted. exact Hpk.
  - intros r Hr. apply In_page, matching_incl in Hr. exact Hr.
Qed.
End MorePages.

Lemma pageable_sum N M :
  0 <= N -> 0 <= M -> int64 (N + M) = true ->
  pageable (Some N) (Some M) = true.
Proof.
  unfold pageable, int64, or_default. intros HN HM H.
  apply andb_true_iff in H as [_ H]. apply Z.ltb_lt in H.
  apply andb_true_iff. split; apply andb_true_iff; split;
    try apply Z.leb_le; try apply Z.ltb_lt; lia.
Qed.

(** X14. Consecutive pages fit together: for offsets and limits that are not
    negative and parameters within the signed 64-bit range, each listing
    returns the page of M rows at offset N and the page of M' rows at offset
    N + M of the rows it selects, and the first followed by the second is
    what it returns for M + M' rows at offset N, so paging through a listing
    neither drops nor repeats a row. *)
Theorem consecutive_pages db parent N M M' :
  0 <= N -> 0 <= M -> 0 <= M' ->
  int64 (N + M + M') = true ->
  optional_int64 parent = true ->
  (exists p1 p2,
      run (get_users (Some N) (Some M)) db = (inr p1, db)
      /\ run (get_users (Some (N + M)) (Some M')) db = (inr p2, db)
      /\ run (get_users (Some N) (Some (M + M'))) db = (inr (p1 ++ p2)%list, db)
      /\ is_page N M (users db) p1
      /\ is_page (N + M) M' (users db) p2)
  /\ (exists p1 p2,
         run (get_workouts parent (Some N) (Some M)) db = (inr p1, db)
         /\ run (get_workouts parent (Some (N + M)) (Some M')) db = (inr p2, db)
         /\ run (get_workouts parent (Some N) (Some (M + M'))) db
            = (inr (p1 ++ p2)%list, db)
         /\ is_page N M (matching Workout.user_id parent (workouts db)) p1
         /\ is_page (N + M) M' (matching Workout.user_id parent (workouts db)) p2)
  /\ (exists p1 p2,
         run (get_exercises parent (Some N) (Some M)) db = (inr p1, db)
         /\ run (get_exercises parent (Some (N + M)) (Some M')) db = (inr p2, db)
         /\ run (get_exercises parent (Some N) (Some (M + M'))) db
            = (inr (p1 ++ p2)%list, db)
         /\ is_page N M (matching Exercise.workout_id parent (exercises db)) p1
         /\ is_page (N + M) M'
              (matching Exercise.workout_id parent (exercises db)) p2)
  /\ (exists p1 p2,
         run (get_meals parent (Some N) (Some M)) db = (inr p1, db)
         /\ run (get_meals parent (Some (N + M)) (Some M')) db = (inr p2, db)
         /\ run (get_meals parent (Some N) (Some (M + M'))) db
            = (inr (p1 ++ p2)%list, db)
         /\ is_page N M (matching Meal.user_id parent (meals db)) p1
         /\ is_page (N + M) M' (matching Meal.user_id parent (meals db)) p2).
Proof.
  intros HN HM HM' Hfits Hparent.
  assert (int64 (N + M) = true /\ int64 (N + (M + M')) = true
          /\ int64 (N + M + M') = true) as (H1 & H2 & H3).
  { unfold int64 in *. apply andb_true_iff in Hfits as [_ H]. apply Z.ltb_lt in H.
    repeat split; apply andb_true_iff; split;
      try apply Z.leb_le; try apply Z.ltb_lt; lia. }
  pose proof (pageable_sum N M HN HM H1) as Hp1.
  pose proof (pageable_sum (N + M) M' ltac:(lia) HM' H3) as Hp2.
  pose proof (pageable_sum N (M + M') HN ltac:(lia) H2) as Hp.
  split; [|split; [|split]].
  - rewrite !get_users_run, Hp1, Hp2, Hp.
    destruct (pages_fit N M M' (users db) HN HM HM') as (p1 & p2 & -> & -> & -> & H).
    exists p1, p2. auto.
  - unfold get_workouts. cbv zeta. rewrite !listing_run.
    rewrite filter_if_truthy_fits by exact Hparent. rewrite Hp1, Hp2, Hp.
    destruct (pages_fit N M M' (matching Workout.user_id parent (workouts db))
                HN HM HM') as (p1 & p2 & -> & -> & -> & H).
    exists p1, p2. auto.
  - unfold get_exercises. cbv zeta. rewrite !listing_run.
    rewrite filter_if_truthy_fits by exact Hparent. rewrite Hp1, Hp2, Hp.
    destruct (pages_fit N M M' (matching Exercise.workout_id parent (exercises db))
                HN HM HM') as (p1 & p2 & -> & -> & -> & H).
    exists p1, p2. auto.
  - unfold get_meals. cbv zeta. rewrite !listing_run.
    rewrite filter_if_truthy_fits by exact Hparent. rewrite Hp1, Hp2, Hp.
    destruct (pages_fit N M M' (matching Meal.user_id parent (meals db))
                HN HM HM') as (p1 & p2 & -> & -> & -> & H).
    exists p1, p2. auto.
Qed.

Lemma consecutive_pages_witness :
  exists p1 p2,
    run (get_users (Some 0) (Some 1)) Sample.db = (inr p1, Sample.db)
    /\ run (get_users (Some 1) (Some 1)) Sample.db = (inr p2, Sample.db)
    /\ run (get_users (Some 0) (Some 2)) Sample.db = (inr (p1 ++ p2)%list, Sample.db)
    /\ (p1 ++ p2)%list = users Sample.db.
Proof.
  assert (0 <= 0) as H0 by lia. assert (0 <= 1) as H1 by lia.
  destruct (consecutive_pages Sample.db None 0 1 1 H0 H1 H1 eq_refl eq_refl)
    as ((p1 & p2 & Hp1 & Hp2 & Hp & _) & _).
  exists p1, p2. split; [exact Hp1|]. split; [exact Hp2|]. split; [exact Hp|].
  injection Hp as <-. reflexivity.
Defined.

(** X15. In a consistent database every listing, whatever the filter, the
    offset and the limit, returns stored rows only, in strictly increasing
    id order, so no row appears twice; and it returns rows whenever the
    filter, the offset and the limit are within the signed 64-bit range. *)
Theorem listings_in_id_order db parent skip limit :
  consistent db ->
  ((forall rows, fst (run (get_users skip limit) db) = inr rows ->
      StronglySorted Z.lt (map User.id rows)
      /\ forall r, In r rows -> In r (users db))
   /\ (pageable skip limit = true ->
       exists rows, run (get_users skip limit) db = (inr rows, db)))
  /\ ((forall rows, fst (run (get_workouts parent skip limit) db) = inr rows ->
         StronglySorted Z.lt (map Workout.id rows)
         /\ forall r, In r rows -> In r (workouts db))
      /\ (optional_int64 parent = true -> pageable skip limit = true ->
          exists rows, run (get_workouts parent skip limit) db = (inr rows, db)))
  /\ ((forall rows, fst (run (get_exercises parent skip limit) db) = inr rows ->
         StronglySorted Z.lt (map Exercise.id rows)
         /\ forall r, In r rows -> In r (exercises db))
      /\ (optional_int64 parent = true -> pageable skip limit = true ->
          exists rows, run (get_exercises parent skip limit) db = (inr rows, db)))
  /\ ((forall rows, fst (run (get_meals parent skip limit) db) = inr rows ->
         StronglySorted Z.lt (map Meal.id rows)
         /\ forall r, In r rows -> In r (meals db))
      /\ (optional_int64 parent = true -> pageable skip limit = true ->
          exists rows, run (get_meals parent skip limit) db = (inr rows, db))).
Proof.
  intros Hdb. split; [|split; [|split]]; split.
  - rewrite get_users_run. simpl. intros rows Hrows.
    destruct (pageable skip limit); [|discriminate]. injection Hrows as <-. split.
    + apply (page_sorted User.id User.id None skip limit). apply users_pk, Hdb.
    + intros r Hr. apply In_page in Hr. exact Hr.
  - intros Hpage. rewrite get_users_run, Hpage. eauto.
  - unfold get_workouts. cbv zeta. rewrite listing_run. simpl. intros rows Hrows.
    apply (listing_sorted Workout.id Workout.user_id parent skip limit
             (workouts db) OverflowError rows (workouts_pk _ Hdb) Hrows).
  - intros Hparent Hpage. unfold get_workouts. cbv zeta. rewrite listing_run.
    rewrite filter_if_truthy_fits by exact Hparent. rewrite Hpage. eauto.
  - unfold get_exercises. cbv zeta. rewrite listing_run. simpl. intros rows Hrows.
    apply (listing_sorted Exercise.id Exercise.workout_id parent skip limit
             (exercises db) OverflowError rows (exercises_pk _ Hdb) Hrows).
  - intros Hparent Hpage. unfold get_exercises. cbv zeta. rewrite listing_run.
    rewrite filter_if_truthy_fits by exact Hparent. rewrite Hpage. eauto.
  - unfold get_meals. cbv zeta. rewrite listing_run. simpl. intros rows Hrows.
    apply (listing_sorted Meal.id Meal.user_id parent skip limit
             (meals db) OverflowError rows (meals_pk _ Hdb) Hrows).
  - intros Hparent Hpage. unfold get_meals. cbv zeta. rewrite listing_run.
    rewrite filter_if_truthy_fits by exact Hparent. rewrite Hpage. eauto.
Qed.

Lemma listings_in_id_order_witness :
  exists rows,
    run (get_workouts None None None) Sample.db = (inr rows, Sample.db)
    /\ StronglySorted Z.lt (map Workout.id rows)
    /\ map Workout.id rows = [1; 2].
Proof.
  destruct (listings_in_id_order Sample.db None None None sample_consistent)
    as (_ & (Hsorted & Hrows) & _).
  destruct (Hrows eq_refl eq_refl) as (rows & Hrun).
  exists rows. split; [exact Hrun|]. split.
  - apply Hsorted. rewrite Hrun. reflexivity.
  - injection Hrun as <-. reflexivity.
Defined.
